(** * Jiminny MCP server: a shallow embedding of [src/server.py]

    The server forwards authenticated GET requests to the Jiminny API and
    reshapes the JSON answers into markdown.  This development embeds the
    helpers, the formatters, the two extractors and the three tool handlers
    as Rocq functions and states the properties of the specification about
    them.

    Conventions.
    - A Python [str] is a list of Unicode code points ([pystr]); [len] and
      slicing count code points, as Python does.
    - A decoded JSON document is a value of [json]; a Python [dict] is an
      association list in insertion order, looked up by first match.
    - A computation that may raise returns [result A]: [Ok a] or
      [Raise e] with [e : exn]. *)

From Stdlib Require Import List ZArith NArith Lia Bool Ascii String DecimalString.
Import ListNotations.

Local Open Scope Z_scope.
#[local] Set Warnings "-register-all".

(* ------------------------------------------------------------------ *)
(** ** Python strings *)
(* ------------------------------------------------------------------ *)

Definition pystr := list N.

(** An ASCII literal, one code point per character. *)
Definition py (s : string) : pystr :=
  map N_of_ascii (list_ascii_of_string s).

Definition nl : pystr := [10%N].
Definition em_dash : N := 8212%N.

Definition len {A} (l : list A) : Z := Z.of_nat (List.length l).

Definition str_eqb (a b : pystr) : bool :=
  if list_eq_dec N.eq_dec a b then true else false.

(** [s[:n]] for [n >= 0]. *)
Definition slice_to {A} (n : Z) (s : list A) : list A := firstn (Z.to_nat n) s.

(** [sep.join(parts)] *)
Fixpoint join (sep : pystr) (parts : list pystr) : pystr :=
  match parts with
  | [] => []
  | [p] => p
  | p :: rest => p ++ sep ++ join sep rest
  end.

(** [s.startswith(p)] *)
Fixpoint startswith (s p : pystr) : bool :=
  match p, s with
  | [], _ => true
  | c :: p', d :: s' => N.eqb c d && startswith s' p'
  | _ :: _, [] => false
  end.

(** [needle in hay] *)
Fixpoint contains (hay needle : pystr) : bool :=
  startswith hay needle ||
  match hay with
  | [] => false
  | _ :: hay' => contains hay' needle
  end.

(** [s.endswith(p)] *)
Definition endswith (s p : pystr) : bool :=
  startswith (rev_append s []) (rev_append p []).

(** Code points for which [str.isspace()] holds; [str.strip()] removes
    them from both ends. *)
Definition isspace (c : N) : bool :=
  ((9 <=? c) && (c <=? 13) || (28 <=? c) && (c <=? 32) ||
   (c =? 133) || (c =? 160) || (c =? 5760) ||
   (8192 <=? c) && (c <=? 8202) || (c =? 8232) || (c =? 8233) ||
   (c =? 8239) || (c =? 8287) || (c =? 12288))%N.

Fixpoint lstrip_by (drop : N -> bool) (s : pystr) : pystr :=
  match s with
  | c :: s' => if drop c then lstrip_by drop s' else s
  | [] => []
  end.

Definition rstrip_by (drop : N -> bool) (s : pystr) : pystr :=
  rev_append (lstrip_by drop (rev_append s [])) [].

(** [s.strip()] *)
Definition strip (s : pystr) : pystr := rstrip_by isspace (lstrip_by isspace s).

(** [s.lstrip(chars)] *)
Definition lstrip_chars (chars : pystr) (s : pystr) : pystr :=
  lstrip_by (fun c => existsb (N.eqb c) chars) s.

(** [s.split("\n")]: never empty, one more piece than there are newlines. *)
Fixpoint split_lines (s : pystr) : list pystr :=
  match s with
  | [] => [[]]
  | c :: s' =>
      if (c =? 10)%N then [] :: split_lines s'
      else match split_lines s' with
           | cur :: rest => (c :: cur) :: rest
           | [] => [[c]]
           end
  end.

(** [str(z)] for an [int]. *)
Definition str_of_int (z : Z) : pystr := py (NilZero.string_of_int (Z.to_int z)).

(** [f"{z:02d}"] *)
Definition fmt_02d (z : Z) : pystr :=
  if (0 <=? z) && (z <? 10) then py "0" ++ str_of_int z else str_of_int z.

(* ------------------------------------------------------------------ *)
(** ** Constants *)
(* ------------------------------------------------------------------ *)

Definition API_BASE_URL : pystr := py "https://app.jiminny.com/api/v1".
Definition CHARACTER_LIMIT : Z := 25000.

(** The suffix appended by [_truncate]. *)
Definition truncation_suffix : pystr :=
  nl ++ nl ++ py "... [truncated " ++ [em_dash] ++
  py " response exceeded character limit]".

(** [_truncate] (server.py, lines 114-118). *)
Definition _truncate (text : pystr) : pystr :=
  if len text <=? CHARACTER_LIMIT then text
  else slice_to CHARACTER_LIMIT text ++ truncation_suffix.

(* ------------------------------------------------------------------ *)
(** ** Decoded JSON values *)
(* ------------------------------------------------------------------ *)

(** What [json.loads] produces.  An integer literal decodes to an [int], a
    literal with a fraction or an exponent to a [float]; a finite binary
    float is the dyadic number [m * 2^e].  The literals [NaN] and
    [Infinity], which RFC 8259 excludes, are not part of the model. *)
Inductive json :=
| JNull
| JBool (b : bool)
| JInt (z : Z)
| JFloat (m e : Z)
| JStr (s : pystr)
| JList (items : list json)
| JDict (kvs : list (pystr * json)).

(** [bool(v)] *)
Definition truthy (v : json) : bool :=
  match v with
  | JNull => false
  | JBool b => b
  | JInt z => negb (z =? 0)
  | JFloat m _ => negb (m =? 0)
  | JStr s => match s with [] => false | _ => true end
  | JList l => match l with [] => false | _ => true end
  | JDict d => match d with [] => false | _ => true end
  end.

(** [a or b] *)
Definition py_or (a b : json) : json := if truthy a then a else b.

(** [type(v).__name__] *)
Definition type_name (v : json) : pystr :=
  match v with
  | JNull => py "NoneType"
  | JBool _ => py "bool"
  | JInt _ => py "int"
  | JFloat _ _ => py "float"
  | JStr _ => py "str"
  | JList _ => py "list"
  | JDict _ => py "dict"
  end.

Definition is_str (v : json) : bool := match v with JStr _ => true | _ => false end.
Definition is_list (v : json) : bool := match v with JList _ => true | _ => false end.
Definition is_dict (v : json) : bool := match v with JDict _ => true | _ => false end.

(** Lookup in a [dict] with [str] keys. *)
Fixpoint dict_find {V} (d : list (pystr * V)) (key : pystr) : option V :=
  match d with
  | [] => None
  | (k, v) :: rest => if str_eqb k key then Some v else dict_find rest key
  end.

(** [key in d] *)
Definition has_key {V} (d : list (pystr * V)) (key : pystr) : bool :=
  match dict_find d key with Some _ => true | None => false end.

(** [d.get(key, default)] *)
Definition get_or (d : list (pystr * json)) (key : pystr) (default : json) : json :=
  match dict_find d key with Some v => v | None => default end.

(** [d.get(key)] *)
Definition get (d : list (pystr * json)) (key : pystr) : json := get_or d key JNull.

(* ------------------------------------------------------------------ *)
(** ** Exceptions *)
(* ------------------------------------------------------------------ *)

(** The classes [_handle_error] tells apart by [isinstance]. *)
Inductive exn_kind :=
| KRuntimeError
| KHTTPStatusError (status : Z)
| KTimeoutException
| KOther.

(** An exception object: its class for [isinstance], [type(e).__name__]
    and [str(e)].  These are the instances of [Exception]; cancellation
    and interpreter exit, which [except Exception] lets through, are not
    modelled. *)
Record exn := mkExn {
  exn_kind_of : exn_kind;
  exn_name : pystr;
  exn_str : pystr
}.

Inductive result (A : Type) :=
| Ok (a : A)
| Raise (e : exn).
Arguments Ok {A} a.
Arguments Raise {A} e.

Definition bind {A B} (c : result A) (k : A -> result B) : result B :=
  match c with
  | Ok a => k a
  | Raise e => Raise e
  end.

Notation "x <- c ;; k" := (bind c (fun x => k))
  (at level 61, c at next level, right associativity).
Notation "' pat <- c ;; k" := (bind c (fun x => match x with pat => k end))
  (at level 61, pat pattern, c at next level, right associativity).

(** [try: c  except Exception as e: h(e)] *)
Definition try_except {A} (c : result A) (h : exn -> result A) : result A :=
  match c with
  | Ok a => Ok a
  | Raise e => h e
  end.

(** Errors raised by the interpreter itself (wording of CPython 3.11). *)
Definition AttributeError (v : json) (attr : string) : exn :=
  mkExn KOther (py "AttributeError")
    (py "'" ++ type_name v ++ py "' object has no attribute '" ++ py attr ++ py "'").
Definition TypeError (msg : pystr) : exn := mkExn KOther (py "TypeError") msg.
Definition ValueError (msg : pystr) : exn := mkExn KOther (py "ValueError") msg.
Definition OverflowError (msg : pystr) : exn := mkExn KOther (py "OverflowError") msg.

(** [v.get(key, default)] on a value that need not be a [dict]. *)
Definition dot_get (v : json) (key : pystr) (default : json) : result json :=
  match v with
  | JDict d => Ok (get_or d key default)
  | _ => Raise (AttributeError v "get")
  end.

(** [v.strip()] on a value that need not be a [str]. *)
Definition dot_strip (v : json) : result pystr :=
  match v with
  | JStr s => Ok (strip s)
  | _ => Raise (AttributeError v "strip")
  end.

(* ------------------------------------------------------------------ *)
(** ** Hashable keys and equality *)
(* ------------------------------------------------------------------ *)

(** Two hashable values are the same [dict] key when they are equal:
    strings by content, numbers by value ([True == 1 == 1.0]).  [hkey] is
    the normal form: a number [m * 2^e] is kept with [m] odd, or as
    [HNum 0 0]. *)
Inductive hkey :=
| HNone
| HNum (m e : Z)
| HStr (s : pystr).

Fixpoint pos_odd_part (p : positive) (e : Z) : positive * Z :=
  match p with
  | xO q => pos_odd_part q (e + 1)
  | _ => (p, e)
  end.

Definition num_key (m e : Z) : hkey :=
  match m with
  | Z0 => HNum 0 0
  | Zpos p => let '(q, e') := pos_odd_part p e in HNum (Zpos q) e'
  | Zneg p => let '(q, e') := pos_odd_part p e in HNum (Zneg q) e'
  end.

(** The key a value denotes; [list] and [dict] are unhashable. *)
Definition py_hash (v : json) : result hkey :=
  match v with
  | JNull => Ok HNone
  | JBool b => Ok (num_key (if b then 1 else 0) 0)
  | JInt z => Ok (num_key z 0)
  | JFloat m e => Ok (num_key m e)
  | JStr s => Ok (HStr s)
  | JList _ | JDict _ =>
      Raise (TypeError (py "unhashable type: '" ++ type_name v ++ py "'"))
  end.

Definition hkey_eq_dec (a b : hkey) : {a = b} + {a <> b}.
Proof.
  decide equality; try apply Z.eq_dec. apply (list_eq_dec N.eq_dec).
Defined.

Definition hkey_eqb (a b : hkey) : bool := if hkey_eq_dec a b then true else false.

(** [a == b] on decoded JSON: scalars by key, lists item by item, dicts
    as maps. *)
Fixpoint py_eq (a b : json) {struct a} : bool :=
  match a, b with
  | JList l, JList l' =>
      (fix items (l l' : list json) : bool :=
         match l, l' with
         | [], [] => true
         | x :: xs, y :: ys => py_eq x y && items xs ys
         | _, _ => false
         end) l l'
  | JDict d, JDict d' =>
      Nat.eqb (List.length d) (List.length d') &&
      (fix entries (d : list (pystr * json)) : bool :=
         match d with
         | [] => true
         | (k, v) :: rest =>
             match dict_find d' k with
             | Some v' => py_eq v v'
             | None => false
             end && entries rest
         end) d
  | JList _, _ | JDict _, _ | _, JList _ | _, JDict _ => false
  | _, _ =>
      match py_hash a, py_hash b with
      | Ok ka, Ok kb => hkey_eqb ka kb
      | _, _ => false
      end
  end.

(** A [dict] whose keys are arbitrary hashable values, in insertion
    order. *)
Definition kdict (V : Type) := list (hkey * V).

Fixpoint kdict_find {V} (d : kdict V) (k : hkey) : option V :=
  match d with
  | [] => None
  | (k', v) :: rest => if hkey_eqb k' k then Some v else kdict_find rest k
  end.

(** [d[k] = v]: replaces in place, or appends a new entry. *)
Fixpoint kdict_set {V} (d : kdict V) (k : hkey) (v : V) : kdict V :=
  match d with
  | [] => [(k, v)]
  | (k', v') :: rest =>
      if hkey_eqb k' k then (k', v) :: rest else (k', v') :: kdict_set rest k v
  end.

(* ------------------------------------------------------------------ *)
(** ** Floats and [_format_seconds] *)
(* ------------------------------------------------------------------ *)

(** A Python [float]: the finite value [m * 2^e], an infinity or NaN. *)
Inductive pyfloat :=
| Finite (m e : Z)
| Infinity (negative : bool)
| NaN.

(** [float(z)] for an [int]: exact below [2^53], otherwise rounded to 53
    significant bits, ties to even; too large a value raises. *)
Definition float_of_int (z : Z) : result pyfloat :=
  let a := Z.abs z in
  if a <? 2 ^ 53 then Ok (Finite z 0)
  else
    let sh := Z.log2 a - 52 in
    let q := Z.shiftr a sh in
    let r := a - Z.shiftl q sh in
    let half := 2 ^ (sh - 1) in
    let q' := if (half <? r) || ((r =? half) && Z.odd q) then q + 1 else q in
    if 2 ^ 1024 <=? Z.shiftl q' sh
    then Raise (OverflowError (py "int too large to convert to float"))
    else Ok (Finite (Z.sgn z * q') sh).

(** [int(x)] for a [float]: truncation towards zero. *)
Definition int_of_float (x : pyfloat) : result Z :=
  match x with
  | Finite m e => Ok (if 0 <=? e then m * 2 ^ e else Z.quot m (2 ^ (- e)))
  | Infinity _ => Raise (OverflowError (py "cannot convert float infinity to integer"))
  | NaN => Raise (ValueError (py "cannot convert float NaN to integer"))
  end.

(** [_format_seconds] (server.py, lines 66-69): [divmod(int(seconds), 60)]
    rendered as [f"{mins}:{secs:02d}"]. *)
Definition _format_seconds (seconds : pyfloat) : result pystr :=
  n <- int_of_float seconds ;;
  let mins := n / 60 in
  let secs := n mod 60 in
  Ok (str_of_int mins ++ py ":" ++ fmt_02d secs).

(* ------------------------------------------------------------------ *)
(** ** The environment and the upstream API *)
(* ------------------------------------------------------------------ *)

Record request := mkRequest {
  url : pystr;
  headers : list (pystr * pystr);
  params : list (pystr * json)
}.

(** An HTTP response: its status, the message httpx puts in the
    [HTTPStatusError] it raises for it, and what [response.json()]
    does (a decoding error is raised there). *)
Record response := mkResponse {
  status_code : Z;
  status_message : pystr;
  json_body : result json
}.

(** Everything a tool call depends on: the environment variable (absent
    when unset) and, for each request, either a transport exception
    (timeout, connection failure) or a response.  A tool call sends each
    request at most once, so a function of the request describes the
    upstream for the duration of the call. *)
Record world := mkWorld {
  JIMINNY_TOKEN : option pystr;
  http_get : request -> result response
}.

Definition token_missing_message : pystr :=
  py "JIMINNY_TOKEN environment variable is not set. " ++
  py "Get your token from Jiminny browser DevTools: " ++
  py "Network tab > any API request > Authorization header (copy the value after 'Bearer ').".

(** [_get_token] (lines 33-42) *)
Definition _get_token (w : world) : result pystr :=
  let token := match JIMINNY_TOKEN w with Some t => t | None => [] end in
  match token with
  | [] => Raise (mkExn KRuntimeError (py "RuntimeError") token_missing_message)
  | _ => Ok token
  end.

(** [_auth_headers] (lines 45-51) *)
Definition _auth_headers (w : world) : result (list (pystr * pystr)) :=
  token <- _get_token w ;;
  Ok [ (py "Authorization", py "Bearer " ++ token);
       (py "Accept", py "application/json");
       (py "Content-Type", py "application/json") ].

(** [response.raise_for_status()]: any status outside 200..299 raises. *)
Definition raise_for_status (r : response) : result unit :=
  if (200 <=? status_code r) && (status_code r <=? 299) then Ok tt
  else Raise (mkExn (KHTTPStatusError (status_code r)) (py "HTTPStatusError")
                (status_message r)).

(** [_api_get] (lines 54-63) *)
Definition _api_get (w : world) (path : pystr) (params : list (pystr * json))
  : result json :=
  hs <- _auth_headers w ;;
  r <- http_get w (mkRequest (API_BASE_URL ++ py "/" ++ path) hs params) ;;
  _ <- raise_for_status r ;;
  json_body r.

(** The loop of [_get_participant_names]; an unhashable id raises inside
    the [try], which ends the loop with the entries stored so far. *)
Fixpoint collect_names (participants : list json) (mapping : kdict json)
  : kdict json :=
  match participants with
  | [] => mapping
  | JDict p :: rest =>
      let pid := py_or (py_or (get p (py "id")) (get p (py "participantId"))) (JStr []) in
      let name := py_or (py_or (py_or (get p (py "name")) (get p (py "displayName")))
                               (get p (py "email"))) (JStr []) in
      if truthy pid && truthy name then
        match py_hash pid with
        | Ok k => collect_names rest (kdict_set mapping k name)
        | Raise _ => mapping
        end
      else collect_names rest mapping
  | _ :: rest => collect_names rest mapping
  end.

(** [_get_participant_names] (lines 72-87): every failure is swallowed. *)
Definition _get_participant_names (w : world) (conversation_id : pystr)
  : kdict json :=
  match _api_get w (py "activity/" ++ conversation_id ++ py "/participants") [] with
  | Raise _ => []
  | Ok data =>
      let participants :=
        match data with
        | JList _ => Ok data
        | _ =>
            d3 <- dot_get data (py "results") (JList []) ;;
            d2 <- dot_get data (py "data") d3 ;;
            dot_get data (py "participants") d2
        end in
      match participants with
      | Ok (JList ps) => collect_names ps []
      | _ => []
      end
  end.

(* ------------------------------------------------------------------ *)
(** ** [_handle_error] (lines 90-111) *)
(* ------------------------------------------------------------------ *)

Definition msg_401 : pystr :=
  py "Error: Authentication failed (401). Your token may have expired. " ++
  py "Go to Jiminny in your browser, open DevTools > Network tab, " ++
  py "refresh the page, and copy the new Bearer token.".
Definition msg_403 : pystr :=
  py "Error: Permission denied (403). You don't have access to this resource.".
Definition msg_404 : pystr :=
  py "Error: Not found (404). Check that the conversation ID is correct.".
Definition msg_429 : pystr :=
  py "Error: Rate limit exceeded (429). Wait a moment and try again.".
Definition msg_status (status : Z) : pystr :=
  py "Error: Jiminny API returned status " ++ str_of_int status ++ py ".".
Definition msg_timeout : pystr := py "Error: Request timed out. Try again.".
Definition msg_other (e : exn) : pystr :=
  py "Error: " ++ exn_name e ++ py ": " ++ exn_str e.

Definition _handle_error (e : exn) : pystr :=
  match exn_kind_of e with
  | KRuntimeError =>
      if contains (exn_str e) (py "JIMINNY_TOKEN") then exn_str e else msg_other e
  | KHTTPStatusError status =>
      if status =? 401 then msg_401
      else if status =? 403 then msg_403
      else if status =? 404 then msg_404
      else if status =? 429 then msg_429
      else msg_status status
  | KTimeoutException => msg_timeout
  | KOther => msg_other e
  end.

(* ------------------------------------------------------------------ *)
(** ** Text extraction helpers (lines 419-470) *)
(* ------------------------------------------------------------------ *)

(** [for key in keys: if <probe succeeds>: return ...]: the first key, in
    order, whose probe succeeds. *)
Fixpoint first_key {A} (probe : pystr -> option A) (keys : list pystr)
  : option A :=
  match keys with
  | [] => None
  | k :: rest =>
      match probe k with
      | Some a => Some a
      | None => first_key probe rest
      end
  end.

(** [f(d[key])] when [key in d]. *)
Fixpoint find_map {A} (f : json -> A) (d : list (pystr * json)) (key : pystr)
  : option A :=
  match d with
  | [] => None
  | (k, v) :: rest => if str_eqb k key then Some (f v) else find_map f rest key
  end.

(** [key in data and isinstance(data[key], str) and data[key].strip()] *)
Definition text_at (d : list (pystr * json)) (key : pystr) : option pystr :=
  match dict_find d key with
  | Some (JStr s) => match strip s with [] => None | t => Some t end
  | _ => None
  end.

Definition nonempty (s : pystr) : bool :=
  match s with [] => false | _ => true end.

(** [_extract_text] (lines 419-441) *)
Fixpoint _extract_text (data : json) (fallback_key : pystr) {struct data} : pystr :=
  match data with
  | JStr s => s
  | JDict d =>
      match first_key (text_at d)
              [py "text"; py "summary"; py "content"; py "description";
               py "transcription"; fallback_key] with
      | Some t => t
      | None =>
          match find_map (fun v => _extract_text v fallback_key) d (py "data") with
          | Some t => t
          | None =>
              match find_map (fun v => _extract_text v fallback_key) d (py "results") with
              | Some t => t
              | None => []
              end
          end
      end
  | JList items =>
      let texts :=
        filter nonempty (map (fun item => _extract_text item fallback_key) items) in
      match texts with
      | [] => []
      | _ => join nl texts
      end
  | _ => []
  end.

(** The [list] branch of [_extract_list_items] (lines 446-455). *)
Fixpoint extract_from_list (items : list json) : list pystr :=
  match items with
  | [] => []
  | JStr s :: rest =>
      match strip s with
      | [] => extract_from_list rest
      | t => t :: extract_from_list rest
      end
  | JDict d :: rest =>
      match _extract_text (JDict d) (py "text") with
      | [] => extract_from_list rest
      | t => t :: extract_from_list rest
      end
  | _ :: rest => extract_from_list rest
  end.

(** The last resort of [_extract_list_items] (line 469): the non-blank
    lines of a text, trimmed and without leading bullet characters. *)
Definition bullet_lines (text : pystr) : list pystr :=
  map (fun line => lstrip_chars (py "* ") (lstrip_chars (py "- ") (strip line)))
      (filter (fun line => nonempty (strip line)) (split_lines text)).

(** [_extract_list_items] (lines 444-470) *)
Fixpoint _extract_list_items (data : json) {struct data} : list pystr :=
  match data with
  | JList items => extract_from_list items
  | JDict d =>
      match first_key
              (fun key =>
                 match find_map (fun v => if is_dict v
                                          then Some (_extract_list_items v)
                                          else None) d key with
                 | Some r => r
                 | None => None
                 end)
              [py "actionItems"; py "keyPoints"; py "key_points"; py "action_items"] with
      | Some r => r
      | None =>
          match first_key
                  (fun key =>
                     match dict_find d key with
                     | Some (JList items) => Some (extract_from_list items)
                     | _ => None
                     end)
                  [py "content"; py "items"; py "data"; py "results";
                   py "action_items"; py "actionItems"; py "key_points";
                   py "keyPoints"; py "points"] with
          | Some r => r
          | None =>
              match _extract_text data (py "text") with
              | [] => []
              | text => bullet_lines text
              end
          end
      end
  | _ => []
  end.

(* ------------------------------------------------------------------ *)
(** ** [jiminny_get_summary] (lines 334-412) *)
(* ------------------------------------------------------------------ *)

Definition right_arrow : N := 8594%N.

(** The loop of the inner [_try_get] (lines 355-364) over the remaining
    prefixes.  [last] is the status of the previous response, which the
    final [return] reads. *)
Fixpoint try_prefixes (w : world) (hs : list (pystr * pystr)) (suffix : pystr)
    (prefixes : list pystr) (attempts : list pystr) (last : option Z)
  : result (Z * json * pystr) :=
  match prefixes with
  | [] =>
      match last with
      | Some status => Ok (status, JNull, join (py " | ") attempts)
      | None =>
          Raise (mkExn KOther (py "UnboundLocalError")
                   (py "cannot access local variable 'resp' where it is not associated with a value"))
      end
  | prefix :: rest =>
      let url := API_BASE_URL ++ py "/" ++ prefix ++ py "/" ++ suffix in
      resp <- http_get w (mkRequest url hs []) ;;
      let attempts' :=
        attempts ++ [url ++ py " " ++ [right_arrow] ++ py " " ++ str_of_int (status_code resp)] in
      if status_code resp =? 200 then
        data <- json_body resp ;;
        Ok (200, data, py "OK: " ++ url)
      else try_prefixes w hs suffix rest attempts' (Some (status_code resp))
  end.

Definition path_prefixes (cid : pystr) : list pystr :=
  [py "activity/" ++ cid; py "conference/" ++ cid].

Definition _try_get (w : world) (hs : list (pystr * pystr)) (cid suffix : pystr)
  : result (Z * json * pystr) :=
  try_prefixes w hs suffix (path_prefixes cid) [] None.

Definition summary_unavailable : pystr :=
  py "_Summary not available via API. Use jiminny_get_transcript and ask for a summary in chat._".
Definition action_items_unavailable : pystr := py "_Action items not available._".
Definition key_points_unavailable : pystr :=
  py "_Key points not available via API. Use jiminny_get_transcript and ask for key points in chat._".
Definition key_points_failed : pystr := py "_Key points not available via API._".

Definition bullets (items : list pystr) : list pystr :=
  map (fun item => py "- " ++ item) items.

(** Lines appended by the [try] block of the Summary section (368-376). *)
Definition summary_section (w : world) (hs : list (pystr * pystr)) (cid : pystr)
  : list pystr :=
  match _try_get w hs cid (py "transcription-summary") with
  | Ok (status, data, _) =>
      if (status =? 200) && truthy data then
        match _extract_text data (py "summary") with
        | [] => [py "_No summary available._"]
        | summary_text => [summary_text]
        end
      else [summary_unavailable]
  | Raise _ => [summary_unavailable]
  end.

(** Lines appended by the [try] block of the Action Items section (381-393). *)
Definition action_items_section (w : world) (hs : list (pystr * pystr)) (cid : pystr)
  : list pystr :=
  match _try_get w hs cid (py "action-items") with
  | Ok (status, data, _) =>
      if (status =? 200) && truthy data then
        match _extract_list_items data with
        | [] => [py "_No action items found._"]
        | action_items => bullets action_items
        end
      else [action_items_unavailable]
  | Raise _ => [action_items_unavailable]
  end.

(** Lines appended by the [try] block of the Key Points section (398-410). *)
Definition key_points_section (w : world) (hs : list (pystr * pystr)) (cid : pystr)
  : list pystr :=
  match _try_get w hs cid (py "key-points") with
  | Ok (status, data, _) =>
      if (status =? 200) && truthy data then
        match _extract_list_items data with
        | [] => [py "_No key points found._"]
        | key_points => bullets key_points
        end
      else [key_points_unavailable]
  | Raise _ => [key_points_failed]
  end.

(** The handler.  [_auth_headers()] is called outside every [try], so a
    missing token is raised to the caller. *)
Definition jiminny_get_summary (w : world) (cid : pystr) : result pystr :=
  let lines := [py "# Conversation Summary"; []] in
  hs <- _auth_headers w ;;
  let lines := lines ++ [py "## Summary"] ++ summary_section w hs cid ++ [[]] in
  let lines := lines ++ [py "## Action Items"] ++ action_items_section w hs cid ++ [[]] in
  let lines := lines ++ [py "## Key Points"] ++ key_points_section w hs cid in
  Ok (_truncate (join nl lines)).

(* ------------------------------------------------------------------ *)
(** ** Formatters and handlers that print arbitrary values *)
(* ------------------------------------------------------------------ *)

Section Runtime.

(** Two built-ins of the Python runtime are taken as given: [repr] (used
    for floats, lists and dicts, whose printed form depends on the
    shortest-digits algorithm and on the Unicode tables) and the parser
    behind [float(s)] for a [str] ([None] when it raises [ValueError]). *)
Variable py_repr : json -> pystr.
Variable float_of_str : pystr -> option pyfloat.

(** [str(v)], which is what [f"{v}"] prints. *)
Definition py_str (v : json) : pystr :=
  match v with
  | JStr s => s
  | JInt z => str_of_int z
  | JBool true => py "True"
  | JBool false => py "False"
  | JNull => py "None"
  | _ => py_repr v
  end.

(** [len(v)] *)
Definition py_len (v : json) : result Z :=
  match v with
  | JStr s => Ok (len s)
  | JList l => Ok (len l)
  | JDict d => Ok (len d)
  | _ => Raise (TypeError (py "object of type '" ++ type_name v ++ py "' has no len()"))
  end.

(** The items [for r in v] visits. *)
Definition py_iter (v : json) : result (list json) :=
  match v with
  | JList l => Ok l
  | JStr s => Ok (map (fun c => JStr [c]) s)
  | JDict d => Ok (map (fun kv => JStr (fst kv)) d)
  | _ => Raise (TypeError (py "'" ++ type_name v ++ py "' object is not iterable"))
  end.

(** [v[:10]] *)
Definition slice10 (v : json) : result json :=
  match v with
  | JStr s => Ok (JStr (slice_to 10 s))
  | JList l => Ok (JList (slice_to 10 l))
  | JDict _ => Raise (TypeError (py "unhashable type: 'slice'"))
  | _ => Raise (TypeError (py "'" ++ type_name v ++ py "' object is not subscriptable"))
  end.

(** [float(v)] *)
Definition py_float (v : json) : result pyfloat :=
  match v with
  | JInt z => float_of_int z
  | JFloat m e => Ok (Finite m e)
  | JBool b => Ok (Finite (if b then 1 else 0) 0)
  | JStr s =>
      match float_of_str s with
      | Some x => Ok x
      | None => Raise (ValueError (py "could not convert string to float: " ++ py_repr v))
      end
  | _ => Raise (TypeError (py "float() argument must be a string or a real number, not '"
                           ++ type_name v ++ py "'"))
  end.

(** The [name] of the object under [key], as lines 146-148 read it: the
    empty string unless [r.get(key)] is a [dict]. *)
Definition name_of (r : list (pystr * json)) (key : pystr) : json :=
  match get r key with
  | JDict d => get_or d (py "name") (JStr [])
  | _ => JStr []
  end.

Definition opt_line (label : string) (v : json) : list pystr :=
  if truthy v then [py label ++ py_str v] else [].

Definition yes_no (v : json) : pystr := if truthy v then py "Yes" else py "No".

(** The lines one conversation record adds (lines 142-171). *)
Definition conversation_lines (r : json) : result (list pystr) :=
  match r with
  | JDict r =>
      let title := get_or r (py "title") (JStr (py "Untitled")) in
      let conv_id := get_or r (py "id") (JStr []) in
      let duration := get_or r (py "durationForHumans") (JStr []) in
      start <- (if truthy (get r (py "actualStartTime"))
                then slice10 (get_or r (py "actualStartTime") (JStr []))
                else Ok (JStr [])) ;;
      let organizer := name_of r (py "organizer") in
      let prospect_name := name_of r (py "prospect") in
      let category := name_of r (py "category") in
      let provider := get_or r (py "provider") (JStr []) in
      let is_summarized := get_or r (py "isSummarized") (JBool false) in
      let has_transcript := get_or r (py "hasTranscription") (JBool false) in
      let status := get_or r (py "status") (JStr []) in
      Ok ([py "## " ++ py_str title;
           py "- **ID**: `" ++ py_str conv_id ++ py "`"]
          ++ opt_line "- **Date**: " start
          ++ opt_line "- **Duration**: " duration
          ++ opt_line "- **Host**: " organizer
          ++ opt_line "- **Contact**: " prospect_name
          ++ opt_line "- **Category**: " category
          ++ opt_line "- **Provider**: " provider
          ++ [py "- **Transcript**: " ++ yes_no has_transcript
              ++ py " | **Summary**: " ++ yes_no is_summarized]
          ++ opt_line "- **Status**: " status
          ++ [[]])
  | _ => Raise (AttributeError r "get")
  end.

Fixpoint all_conversation_lines (rs : list json) : result (list pystr) :=
  match rs with
  | [] => Ok []
  | r :: rest =>
      ls <- conversation_lines r ;;
      more <- all_conversation_lines rest ;;
      Ok (ls ++ more)
  end.

Definition list_header (current_page total : json) : pystr :=
  py "# Jiminny Conversations (page " ++ py_str current_page ++ py ", "
  ++ py_str total ++ py " total)".

(** [_format_conversation_list] (lines 124-176) *)
Definition _format_conversation_list (data : json) : result pystr :=
  results <- dot_get data (py "results") (JList []) ;;
  pagination <- dot_get data (py "pagination") (JDict []) ;;
  match pagination with
  | JDict pg =>
      n <- py_len results ;;
      let total := get_or pg (py "total") (JInt n) in
      let current_page := get_or pg (py "current") (JInt 1) in
      let next_page := get_or pg (py "next") JNull in
      let lines := [list_header current_page total; []] in
      if negb (truthy results) then
        Ok (join nl (lines ++ [py "No conversations found."]))
      else
        rs <- py_iter results ;;
        body <- all_conversation_lines rs ;;
        let lines := lines ++ body in
        let lines :=
          if truthy next_page
          then lines ++ [py "_More results available " ++ [em_dash]
                         ++ py " request page " ++ py_str next_page ++ py "._"]
          else lines in
        Ok (_truncate (join nl lines))
  | _ => Raise (AttributeError pagination "get")
  end.

(** [jiminny_list_conversations] (lines 217-234) *)
Definition jiminny_list_conversations (w : world) (page : Z) : result pystr :=
  try_except
    (data <- _api_get w (py "page/on-demand") [(py "page", JInt page)] ;;
     _format_conversation_list data)
    (fun e => Ok (_handle_error e)).

(* ------------------------------------------------------------------ *)
(** ** [jiminny_get_transcript] (lines 247-321) *)
(* ------------------------------------------------------------------ *)

(** Lines 263-267: the payload itself when it is a list; for a mapping the
    value of [segments or entries or data or results or []]. *)
Definition select_segments (data : json) : json :=
  match data with
  | JList _ => data
  | JDict d =>
      py_or (py_or (py_or (py_or (get d (py "segments")) (get d (py "entries")))
                          (get d (py "data")))
                   (get d (py "results")))
            (JList [])
  | _ => JList []
  end.

(** Lines 270-272: the first direct string field. *)
Definition direct_text (d : list (pystr * json)) : option pystr :=
  first_key (fun key => match dict_find d key with
                        | Some (JStr s) => Some s
                        | _ => None
                        end)
            [py "transcript"; py "text"; py "content"; py "transcription"].

Definition transcript_title : pystr := py "# Transcript".

(** The local variables the segment loop updates. *)
Record loop_state := mkLoop {
  speaker_counter : Z;
  auto_names : kdict pystr;
  lines : list pystr;
  prev_speaker : json
}.

Definition loop_init : loop_state :=
  mkLoop 0 [] [transcript_title; []] JNull.

Definition speaker_label (n : Z) : pystr := py "Speaker " ++ str_of_int n.

(** Lines 296-303: the display name of a participant id, and the
    counter and the table of automatic labels after it. *)
Definition resolve_speaker (names : kdict json)
    (speaker_counter : Z) (auto_names : kdict pystr) (pid : json)
  : result (json * Z * kdict pystr) :=
  k <- py_hash pid ;;
  match kdict_find names k with
  | Some name => Ok (name, speaker_counter, auto_names)
  | None =>
      match kdict_find auto_names k with
      | Some label => Ok (JStr label, speaker_counter, auto_names)
      | None =>
          let speaker_counter := speaker_counter + 1 in
          let speaker := speaker_label speaker_counter in
          Ok (JStr speaker, speaker_counter, kdict_set auto_names k speaker)
      end
  end.

(** Line 294 *)
Definition segment_start (seg : list (pystr * json)) : json :=
  py_or (py_or (py_or (get seg (py "startsAt")) (get seg (py "startTime")))
               (get seg (py "start")))
        (JInt 0).

(** Line 293 *)
Definition segment_pid (seg : list (pystr * json)) : json :=
  py_or (py_or (get seg (py "participantId")) (get seg (py "speaker")))
        (JStr (py "unknown")).

(** Line 289 *)
Definition segment_text (seg : list (pystr * json)) : json :=
  py_or (py_or (py_or (get seg (py "transcript")) (get seg (py "text")))
               (get seg (py "content")))
        (JStr []).

(** Line 305 *)
Definition segment_timestamp (start : json) : result pystr :=
  if truthy start then (x <- py_float start ;; _format_seconds x) else Ok [].

Definition header_line (speaker : json) (timestamp text : pystr) : pystr :=
  nl ++ py "**" ++ py_str speaker ++ py "** [" ++ timestamp ++ py "]:" ++ nl ++ text.

(** Lines 307-311 *)
Definition emit (st : loop_state) (speaker : json) (timestamp text : pystr)
  : loop_state :=
  if negb (py_eq speaker (prev_speaker st)) then
    mkLoop (speaker_counter st) (auto_names st)
           (lines st ++ [header_line speaker timestamp text]) speaker
  else
    mkLoop (speaker_counter st) (auto_names st)
           (lines st ++ [text]) (prev_speaker st).

(** One iteration of the loop (lines 285-311). *)
Definition loop_body (names : kdict json) (st : loop_state) (seg : json)
  : result loop_state :=
  match seg with
  | JDict seg =>
      let text := segment_text seg in
      stripped <- dot_strip text ;;
      match stripped with
      | [] => Ok st
      | _ =>
          let pid := segment_pid seg in
          let start := segment_start seg in
          '(speaker, counter, labels) <-
             resolve_speaker names (speaker_counter st) (auto_names st) pid ;;
          timestamp <- segment_timestamp start ;;
          Ok (emit (mkLoop counter labels (lines st) (prev_speaker st))
                   speaker timestamp (py_str text))
      end
  | _ => Ok st
  end.

Fixpoint segment_loop (names : kdict json) (st : loop_state) (segments : list json)
  : result loop_state :=
  match segments with
  | [] => Ok st
  | seg :: rest =>
      st' <- loop_body names st seg ;;
      segment_loop names st' rest
  end.

(** [", ".join(values)]: every item has to be a [str]. *)
Fixpoint join_values (i : Z) (values : list json) : result (list pystr) :=
  match values with
  | [] => Ok []
  | JStr s :: rest => more <- join_values (i + 1) rest ;; Ok (s :: more)
  | v :: _ =>
      Raise (TypeError (py "sequence item " ++ str_of_int i
                        ++ py ": expected str instance, " ++ type_name v ++ py " found"))
  end.

(** [lines.insert(2, x)] *)
Definition insert2 (ls : list pystr) (x : pystr) : list pystr :=
  firstn 2 ls ++ x :: skipn 2 ls.

(** Lines 313-316 *)
Definition add_participants (names : kdict json) (st : loop_state)
  : result (list pystr) :=
  match names with
  | _ :: _ =>
      vs <- join_values 0 (map snd names) ;;
      Ok (insert2 (lines st) (py "_Participants: " ++ join (py ", ") vs ++ py "_" ++ nl))
  | [] =>
      match auto_names st with
      | _ :: _ =>
          Ok (insert2 (lines st)
                (py "_Note: " ++ str_of_int (len (auto_names st))
                 ++ py " speakers detected (names could not be resolved)_" ++ nl))
      | [] => Ok (lines st)
      end
  end.

(** Lines 277-318: the rendering of a segment list. *)
Definition render_segments (names : kdict json) (segments : list json)
  : result pystr :=
  st <- segment_loop names loop_init segments ;;
  ls <- add_participants names st ;;
  Ok (_truncate (join nl ls)).

(** The body of the [try] (lines 260-318). *)
Definition transcript_body (w : world) (cid : pystr) : result pystr :=
  data <- _api_get w (py "activity/" ++ cid ++ py "/transcription") [] ;;
  let segments := select_segments data in
  match (if is_dict data && negb (truthy segments)
         then match data with JDict d => direct_text d | _ => None end
         else None) with
  | Some text => Ok (_truncate (transcript_title ++ nl ++ nl ++ text))
  | None =>
      match segments with
      | JList (seg :: rest) =>
          render_segments (_get_participant_names w cid) (seg :: rest)
      | _ => Ok (_truncate (transcript_title ++ nl ++ nl ++ py_str data))
      end
  end.

Definition jiminny_get_transcript (w : world) (cid : pystr) : result pystr :=
  try_except (transcript_body w cid) (fun e => Ok (_handle_error e)).

(* ------------------------------------------------------------------ *)
(** ** The segment loop in two stages *)
(* ------------------------------------------------------------------ *)

(** What the loop works out for a segment it keeps: the speaker, the
    timestamp and the text (lines 286-305). *)
Definition utterance := (json * pystr * pystr)%type.

(** The loop without its last step (lines 307-311): the utterances of the
    kept segments in order, and the counter and the table of automatic
    labels at the end. *)
Fixpoint label_segments (names : kdict json)
    (speaker_counter : Z) (auto_names : kdict pystr) (segments : list json)
  : result (list utterance * Z * kdict pystr) :=
  match segments with
  | [] => Ok ([], speaker_counter, auto_names)
  | JDict seg :: rest =>
      let text := segment_text seg in
      stripped <- dot_strip text ;;
      match stripped with
      | [] => label_segments names speaker_counter auto_names rest
      | _ =>
          '(speaker, counter, labels) <-
             resolve_speaker names speaker_counter auto_names (segment_pid seg) ;;
          timestamp <- segment_timestamp (segment_start seg) ;;
          '(more, counter, labels) <- label_segments names counter labels rest ;;
          Ok ((speaker, timestamp, py_str text) :: more, counter, labels)
      end
  | _ :: rest => label_segments names speaker_counter auto_names rest
  end.

(** Lines 307-311 applied to a list of utterances: the entries appended to
    [lines], and the value [prev_speaker] ends with. *)
Fixpoint entries_from (prev : json) (us : list utterance) : list pystr * json :=
  match us with
  | [] => ([], prev)
  | (speaker, timestamp, text) :: rest =>
      if negb (py_eq speaker prev)
      then let '(es, last) := entries_from speaker rest in
           (header_line speaker timestamp text :: es, last)
      else let '(es, last) := entries_from prev rest in
           (text :: es, last)
  end.

(** A block of the rendered transcript, in the words of the
    specification: a run of consecutive utterances of one speaker, printed
    under a single header that carries the timestamp of the first. *)
Record block := mkBlock {
  block_speaker : json;
  block_timestamp : pystr;
  block_first : pystr;
  block_more : list pystr
}.

(** Utterances are grouped from left to right: an utterance joins the
    current block when its speaker equals the one of the block, and opens
    a new block otherwise. *)
Fixpoint group_from (cur : block) (us : list utterance) : list block :=
  match us with
  | [] => [cur]
  | (speaker, timestamp, text) :: rest =>
      if py_eq speaker (block_speaker cur)
      then group_from (mkBlock (block_speaker cur) (block_timestamp cur)
                               (block_first cur) (block_more cur ++ [text])) rest
      else cur :: group_from (mkBlock speaker timestamp text []) rest
  end.

Definition group_runs (us : list utterance) : list block :=
  match us with
  | [] => []
  | (speaker, timestamp, text) :: rest =>
      group_from (mkBlock speaker timestamp text []) rest
  end.

(** One header line, with the first text, then the other texts. *)
Definition render_block (b : block) : list pystr :=
  header_line (block_speaker b) (block_timestamp b) (block_first b) :: block_more b.

(** The key of the participant id of a segment the loop keeps. *)
Definition segment_key (seg : json) : option hkey :=
  match seg with
  | JDict d =>
      match segment_text d with
      | JStr t =>
          match strip t with
          | [] => None
          | _ => match py_hash (segment_pid d) with
                 | Ok k => Some k
                 | Raise _ => None
                 end
          end
      | _ => None
      end
  | _ => None
  end.

Definition kept_keys (segments : list json) : list hkey :=
  flat_map (fun seg => match segment_key seg with Some k => [k] | None => [] end)
           segments.


End Runtime.

(** Distinct ids in order of first appearance. *)
Definition see (seen : list hkey) (k : hkey) : list hkey :=
  if existsb (hkey_eqb k) seen then seen else seen ++ [k].

Definition first_seen (ks : list hkey) : list hkey := fold_left see ks [].

(** The position of [k] in [l], counted from 1 (one past the end when [k]
    does not occur). *)
Fixpoint rank (k : hkey) (l : list hkey) : Z :=
  match l with
  | [] => 1
  | k' :: rest => if hkey_eqb k' k then 1 else 1 + rank k rest
  end.

(** The table that gives the [i]-th key the label [Speaker (from + i)]. *)
Fixpoint numbering (from : Z) (keys : list hkey) : kdict pystr :=
  match keys with
  | [] => []
  | k :: rest => (k, speaker_label (from + 1)) :: numbering (from + 1) rest
  end.

Definition segment_keys : list pystr :=
  [py "segments"; py "entries"; py "data"; py "results"].


(** Two decimal digits. *)
Definition two_digits (n : Z) : pystr := [Z.to_N (48 + n / 10); Z.to_N (48 + n mod 10)].

(** A segment as the API sends it. *)
Definition sample_segment (pid text : string) (start : json) : json :=
  JDict [(py "participantId", JStr (py pid)); (py "text", JStr (py text));
         (py "startsAt", start)].

(** Ids [A, A, B, A]. *)
Definition four_segments : list json :=
  [sample_segment "A" "one" (JInt 5); sample_segment "A" "two" (JInt 9);
   sample_segment "B" "three" (JInt 14); sample_segment "A" "four" (JInt 75)].

(** Segments [(A, hi), (A, there)]. *)
Definition two_segments : list json :=
  [sample_segment "A" "hi" (JInt 5); sample_segment "A" "there" (JInt 7)].

(** The state the loop ends in on [four_segments]. *)
Definition four_segments_final : loop_state :=
  mkLoop 2 [(HStr (py "A"), py "Speaker 1"); (HStr (py "B"), py "Speaker 2")]
    [transcript_title; [];
     nl ++ py "**Speaker 1** [0:05]:" ++ nl ++ py "one";
     py "two";
     nl ++ py "**Speaker 2** [0:14]:" ++ nl ++ py "three";
     nl ++ py "**Speaker 1** [1:15]:" ++ nl ++ py "four"]
    (JStr (py "Speaker 1")).

(** The state the loop ends in on [two_segments]. *)
Definition two_segments_final : loop_state :=
  mkLoop 1 [(HStr (py "A"), py "Speaker 1")]
    [transcript_title; [];
     nl ++ py "**Speaker 1** [0:05]:" ++ nl ++ py "hi";
     py "there"]
    (JStr (py "Speaker 1")).

(** A transcription payload whose [segments] is empty and whose [entries]
    is [null], with one segment under [data]. *)
Definition sparse_payload : list (pystr * json) :=
  [(py "segments", JList []); (py "entries", JNull);
   (py "data", JList [sample_segment "A" "hi" (JInt 5)])].

(** An upstream that serves [payload] as the transcription and has no
    participants endpoint. *)
Definition transcript_upstream (payload : json) (req : request) : result response :=
  if endswith (url req) (py "/transcription")
  then Ok (mkResponse 200 (py "OK") (Ok payload))
  else Ok (mkResponse 404 (py "Not Found") (Ok JNull)).

Definition transcript_world (payload : json) : world :=
  mkWorld (Some (py "secret")) (transcript_upstream payload).

(** A response with no conversation on page 3. *)
Definition empty_page : list (pystr * json) :=
  [(py "results", JList []);
   (py "pagination", JDict [(py "total", JInt 0); (py "current", JInt 3);
                            (py "next", JNull)])].


(** A runtime for the sample evaluations: no value that needs [repr] is
    printed in them, and no string is parsed as a float. *)
Definition sample_repr (v : json) : pystr := type_name v.
Definition sample_float_of_str (s : pystr) : option pyfloat := None.

(* ------------------------------------------------------------------ *)
(** ** Notions used by the statements, and sample inputs *)
(* ------------------------------------------------------------------ *)

(** The document assembled when the summary lookup gives the text
    [summary], the action-items lookup fails and the key-points lookup
    gives [points]. *)
Definition degraded_report (summary : pystr) (points : list pystr) : pystr :=
  join nl ([py "# Conversation Summary"; [];
            py "## Summary"; summary; [];
            py "## Action Items"; action_items_unavailable; [];
            py "## Key Points"] ++ bullets points).

(** A text of 25,001 characters. *)
Definition long_text : pystr := repeat 97%N (Z.to_nat 25001).

(** An upstream that answers the summary lookup with [summary_body], times
    out on the action-items lookup and answers the key-points lookup with
    one point. *)
Definition sample_upstream (summary_body : json) (req : request) : result response :=
  if endswith (url req) (py "/transcription-summary")
  then Ok (mkResponse 200 (py "OK") (Ok summary_body))
  else if endswith (url req) (py "/action-items")
  then Raise (mkExn KTimeoutException (py "ReadTimeout") (py "timed out"))
  else if endswith (url req) (py "/key-points")
  then Ok (mkResponse 200 (py "OK") (Ok (JList [JStr (py "Renewal is due in May")])))
  else Ok (mkResponse 404 (py "Not Found") (Ok JNull)).

Definition sample_world (summary_body : json) : world :=
  mkWorld (Some (py "secret")) (sample_upstream summary_body).

Definition sample_headers : list (pystr * pystr) :=
  [ (py "Authorization", py "Bearer secret");
    (py "Accept", py "application/json");
    (py "Content-Type", py "application/json") ].

Definition short_summary_body : json :=
  JDict [(py "summary", JStr (py "The customer agreed to a pilot."))].
Definition long_summary_body : json := JDict [(py "summary", JStr long_text)].

(* ------------------------------------------------------------------ *)
(** ** Further notions and sample inputs *)
(* ------------------------------------------------------------------ *)

(** The five keys [_extract_text] tries before its fallback key (line 425). *)
Definition standard_text_keys : list pystr :=
  [py "text"; py "summary"; py "content"; py "description"; py "transcription"].

(** Line 81 and line 82: the id and the name read from one participant. *)
Definition participant_id (p : list (pystr * json)) : json :=
  py_or (py_or (get p (py "id")) (get p (py "participantId"))) (JStr []).
Definition participant_name (p : list (pystr * json)) : json :=
  py_or (py_or (py_or (get p (py "name")) (get p (py "displayName")))
               (get p (py "email"))) (JStr []).

(** The segments the loop passes over (lines 286-291): those that are not
    objects, and those whose text is a blank string. *)
Definition is_skipped (seg : json) : bool :=
  match seg with
  | JDict d =>
      match segment_text d with
      | JStr t => negb (nonempty (strip t))
      | _ => false
      end
  | _ => true
  end.

(** The headers a request carries when the token is [token]. *)
Definition headers_for (token : pystr) : list (pystr * pystr) :=
  [ (py "Authorization", py "Bearer " ++ token);
    (py "Accept", py "application/json");
    (py "Content-Type", py "application/json") ].

(** The address of a summary lookup under one of the two prefixes. *)
Definition lookup_url (prefix cid suffix : pystr) : pystr :=
  API_BASE_URL ++ py "/" ++ (prefix ++ cid) ++ py "/" ++ suffix.

(** The report when every lookup raises, and when every lookup is
    answered with a status other than 200. *)
Definition all_failed_report : pystr :=
  join nl [py "# Conversation Summary"; [];
           py "## Summary"; summary_unavailable; [];
           py "## Action Items"; action_items_unavailable; [];
           py "## Key Points"; key_points_failed].
Definition all_unavailable_report : pystr :=
  join nl [py "# Conversation Summary"; [];
           py "## Summary"; summary_unavailable; [];
           py "## Action Items"; action_items_unavailable; [];
           py "## Key Points"; key_points_unavailable].

(** An upstream on which every request times out, and one that answers
    every request with the same status and an empty object. *)
Definition timeout_upstream (req : request) : result response :=
  Raise (mkExn KTimeoutException (py "ConnectTimeout") (py "timed out")).
Definition status_upstream (status : Z) (req : request) : result response :=
  Ok (mkResponse status (py "status") (Ok (JDict []))).
Definition world_with (upstream : request -> result response) : world :=
  mkWorld (Some (py "secret")) upstream.

(** A participants payload in which the id A occurs twice. *)
Definition sample_participants : list json :=
  [JDict [(py "id", JStr (py "A")); (py "name", JStr (py "Ann"))];
   JDict [(py "id", JStr (py "B")); (py "email", JStr (py "bob@example.com"))];
   JDict [(py "participantId", JStr (py "A")); (py "displayName", JStr (py "Anna"))]].

(** An upstream that serves [payload] at the participants address only. *)
Definition participants_upstream (payload : json) (req : request) : result response :=
  if endswith (url req) (py "/participants")
  then Ok (mkResponse 200 (py "OK") (Ok payload))
  else Ok (mkResponse 404 (py "Not Found") (Ok JNull)).

(** An upstream whose answers have status 200 and a body that is not
    JSON. *)
Definition malformed_upstream (req : request) : result response :=
  Ok (mkResponse 200 (py "OK")
        (Raise (mkExn KOther (py "JSONDecodeError") (py "Expecting value")))).

(** Segments of which only the last is kept. *)
Definition padded_segments : list json :=
  [JNull; sample_segment "A" "   " (JInt 1); JStr (py "noise");
   sample_segment "A" "hi" (JInt 5)].

(** A segment whose text is a number. *)
Definition numeric_text_segment : json := JDict [(py "text", JInt 5)].

(** What the handler returns for [sparse_payload]. *)
Definition sparse_transcript : pystr :=
  py "# Transcript" ++ nl ++ nl
  ++ py "_Note: 1 speakers detected (names could not be resolved)_"
  ++ nl ++ nl ++ nl ++ py "**Speaker 1** [0:05]:" ++ nl ++ py "hi".

(** The lines of each section of the summary report as a function of the
    outcome of that section's lookup alone (the [try] blocks of lines
    368-376, 381-393 and 398-410). *)
Definition summary_lines (outcome : result (Z * json * pystr)) : list pystr :=
  match outcome with
  | Ok (status, data, _) =>
      if (status =? 200) && truthy data then
        match _extract_text data (py "summary") with
        | [] => [py "_No summary available._"]
        | summary_text => [summary_text]
        end
      else [summary_unavailable]
  | Raise _ => [summary_unavailable]
  end.

Definition action_item_lines (outcome : result (Z * json * pystr)) : list pystr :=
  match outcome with
  | Ok (status, data, _) =>
      if (status =? 200) && truthy data then
        match _extract_list_items data with
        | [] => [py "_No action items found._"]
        | action_items => bullets action_items
        end
      else [action_items_unavailable]
  | Raise _ => [action_items_unavailable]
  end.

Definition key_point_lines (outcome : result (Z * json * pystr)) : list pystr :=
  match outcome with
  | Ok (status, data, _) =>
      if (status =? 200) && truthy data then
        match _extract_list_items data with
        | [] => [py "_No key points found._"]
        | key_points => bullets key_points
        end
      else [key_points_unavailable]
  | Raise _ => [key_points_failed]
  end.

(** The document with the three headers over the given section lines
    (lines 347, 367, 377, 380, 394, 397). *)
Definition summary_document (summary actions points : list pystr) : pystr :=
  join nl ([py "# Conversation Summary"; []]
           ++ [py "## Summary"] ++ summary ++ [[]]
           ++ [py "## Action Items"] ++ actions ++ [[]]
           ++ [py "## Key Points"] ++ points).

(** A lookup that raised, or whose answer has a status other than 200. *)
Definition lookup_failed (outcome : result (Z * json * pystr)) : Prop :=
  match outcome with
  | Ok (status, _, _) => status <> 200
  | Raise _ => True
  end.

(* ================================================================== *)
(** * Properties *)
(* ================================================================== *)

(** ** Strings *)

Lemma str_eqb_eq a b : str_eqb a b = true <-> a = b.
Proof. unfold str_eqb; destruct (list_eq_dec N.eq_dec a b); split; congruence. Qed.

Lemma str_eqb_refl a : str_eqb a a = true.
Proof. now apply str_eqb_eq. Qed.

Lemma len_app {A} (a b : list A) : len (a ++ b) = len a + len b.
Proof. unfold len. rewrite length_app. lia. Qed.

Lemma startswith_app (p rest : pystr) : startswith (p ++ rest) p = true.
Proof.
  induction p as [|c p IH]; simpl; [now destruct rest|].
  now rewrite N.eqb_refl, IH.
Qed.

Lemma endswith_app (a suffix : pystr) : endswith (a ++ suffix) suffix = true.
Proof. unfold endswith. rewrite <- !rev_alt, rev_app_distr. apply startswith_app. Qed.

Lemma contains_app (a needle b : pystr) : contains (a ++ needle ++ b) needle = true.
Proof.
  induction a as [|c a IH]; simpl.
  - destruct needle as [|c needle]; simpl; [now destruct b|].
    rewrite N.eqb_refl, startswith_app. reflexivity.
  - rewrite IH. apply orb_true_r.
Qed.

Lemma len_slice_to (n : Z) (s : pystr) : 0 <= n <= len s -> len (slice_to n s) = n.
Proof.
  unfold len, slice_to. intros H.
  rewrite length_firstn, Nat.min_l by lia. lia.
Qed.

(** ** Truncation *)

Lemma truncate_within_budget (text : pystr) :
  len text <= CHARACTER_LIMIT -> _truncate text = text.
Proof.
  intros H. unfold _truncate.
  destruct (Z.leb_spec (len text) CHARACTER_LIMIT) as [_|Hgt]; [reflexivity|lia].
Qed.

(** C2. A text longer than the 25,000-character budget is returned as its
    first 25,000 characters followed by the truncation suffix: the length
    is the budget plus the length of the suffix, and the result ends with
    the suffix.  A text within the budget is returned unchanged. *)
Theorem truncate_budget (text : pystr) :
  (CHARACTER_LIMIT < len text ->
     len (_truncate text) = CHARACTER_LIMIT + len truncation_suffix /\
     endswith (_truncate text) truncation_suffix = true) /\
  (len text <= CHARACTER_LIMIT -> _truncate text = text).
Proof.
  unfold _truncate. split; intros H.
  - destruct (Z.leb_spec (len text) CHARACTER_LIMIT) as [Hle|_]; [lia|].
    split.
    + rewrite len_app, len_slice_to; [reflexivity|].
      unfold CHARACTER_LIMIT in *. lia.
    + apply endswith_app.
  - now apply truncate_within_budget.
Qed.

Lemma truncate_budget_witness :
  (len (_truncate long_text) = 25053 /\
   endswith (_truncate long_text) truncation_suffix = true) /\
  _truncate (py "short") = py "short".
Proof.
  split.
  - apply (proj1 (truncate_budget long_text)). vm_compute. reflexivity.
  - apply (proj2 (truncate_budget (py "short"))). vm_compute. discriminate.
Defined.

(** ** Error messages *)

(** C8, as amended.  [_handle_error] maps an HTTP status error to a fixed
    message: 401 to the message containing "Authentication failed", 403 to
    the one containing "Permission denied", 404 to "Not found", 429 to
    "Rate limit"; every status other than these four yields the generic
    message, which names the status. *)
Theorem handle_error_status_messages (name msg : pystr) (status : Z) :
  let e := mkExn (KHTTPStatusError status) name msg in
  (status = 401 -> _handle_error e = msg_401) /\
  (status = 403 -> _handle_error e = msg_403) /\
  (status = 404 -> _handle_error e = msg_404) /\
  (status = 429 -> _handle_error e = msg_429) /\
  (status <> 401 -> status <> 403 -> status <> 404 -> status <> 429 ->
     _handle_error e = msg_status status) /\
  contains msg_401 (py "Authentication failed") = true /\
  contains msg_403 (py "Permission denied") = true /\
  contains msg_404 (py "Not found") = true /\
  contains msg_429 (py "Rate limit") = true /\
  contains (msg_status status) (py "status " ++ str_of_int status) = true.
Proof.
  cbv zeta. unfold _handle_error; cbn [exn_kind_of].
  repeat split; try (intros ->; reflexivity); try (vm_compute; reflexivity).
  - intros H1 H3 H4 H9.
    destruct (Z.eqb_spec status 401); [contradiction|].
    destruct (Z.eqb_spec status 403); [contradiction|].
    destruct (Z.eqb_spec status 404); [contradiction|].
    destruct (Z.eqb_spec status 429); [contradiction|reflexivity].
  - unfold msg_status.
    change (py "Error: Jiminny API returned status ")
      with (py "Error: Jiminny API returned " ++ py "status ").
    rewrite <- !app_assoc.
    rewrite (app_assoc (py "status ")). apply contains_app.
Qed.

Lemma handle_error_status_messages_witness :
  _handle_error (mkExn (KHTTPStatusError 401) (py "HTTPStatusError") []) = msg_401 /\
  _handle_error (mkExn (KHTTPStatusError 500) (py "HTTPStatusError") []) = msg_status 500.
Proof.
  pose proof (handle_error_status_messages (py "HTTPStatusError") [] 401) as H1.
  pose proof (handle_error_status_messages (py "HTTPStatusError") [] 500) as H5.
  cbv zeta in H1, H5. split.
  - apply H1. reflexivity.
  - apply H5; discriminate.
Defined.

(** C8, as stated, fails at status 403: it is none of 401, 404 and 429,
    and the message is not the generic one. *)
Lemma handle_error_403_is_not_generic :
  403 <> 401 /\ 403 <> 404 /\ 403 <> 429 /\
  _handle_error (mkExn (KHTTPStatusError 403) (py "HTTPStatusError") []) = msg_403 /\
  msg_403 <> msg_status 403.
Proof. repeat split; try discriminate. Qed.

(** ** Extractors *)

(** C9. The reference cases of the specification: the list extractor on
    [{"actionItems": {"content": ["x", "y"]}}] returns [["x", "y"]], and
    the text extractor on [{"summary": "  done  "}] returns ["done"],
    whatever the fallback key. *)
Theorem extractors_reference_cases :
  _extract_list_items
    (JDict [(py "actionItems",
             JDict [(py "content", JList [JStr (py "x"); JStr (py "y")])])])
  = [py "x"; py "y"] /\
  (forall fallback_key,
     _extract_text (JDict [(py "summary", JStr (py "  done  "))]) fallback_key
     = py "done").
Proof.
  split; [vm_compute; reflexivity|].
  intros fallback_key. reflexivity.
Qed.

(** ** The summary report *)

Lemma join_app (sep : pystr) (a b : list pystr) :
  a <> [] -> b <> [] -> join sep (a ++ b) = join sep a ++ sep ++ join sep b.
Proof.
  induction a as [|x a IH]; intros Ha Hb; [contradiction|].
  destruct a as [|y a].
  - simpl. destruct b; [contradiction|reflexivity].
  - change (join sep ((x :: y :: a) ++ b)) with (x ++ sep ++ join sep ((y :: a) ++ b)).
    rewrite IH by (assumption || discriminate).
    change (join sep (x :: y :: a)) with (x ++ sep ++ join sep (y :: a)).
    now rewrite <- !app_assoc.
Qed.

Lemma contains_skip (a b needle : pystr) :
  contains b needle = true -> contains (a ++ b) needle = true.
Proof.
  intros H. induction a as [|c a IH]; simpl; [assumption|].
  rewrite IH. apply orb_true_r.
Qed.

Lemma contains_here (needle rest : pystr) : contains (needle ++ rest) needle = true.
Proof. apply (contains_app [] needle rest). Qed.

Lemma contains_refl (a : pystr) : contains a a = true.
Proof.
  pose proof (contains_app [] a []) as H. simpl in H.
  now rewrite app_nil_r in H.
Qed.

(** The missing token is the one failure of [jiminny_get_summary] that is
    not confined to a section. *)
Lemma get_summary_returns_with_token (w : world) (cid : pystr) hs :
  _auth_headers w = Ok hs -> exists s, jiminny_get_summary w cid = Ok s.
Proof. intros H. unfold jiminny_get_summary. rewrite H. simpl. eauto. Qed.

(** C1, at the failing input.  With [JIMINNY_TOKEN] unset, or set to the
    empty string, [jiminny_get_summary] raises the [RuntimeError] of
    [_get_token] to its caller, whatever the upstream does and whatever
    the conversation id: no string is returned. *)
Theorem get_summary_raises_without_token
    (upstream : request -> result response) (cid : pystr) :
  jiminny_get_summary (mkWorld None upstream) cid
  = Raise (mkExn KRuntimeError (py "RuntimeError") token_missing_message) /\
  jiminny_get_summary (mkWorld (Some []) upstream) cid
  = Raise (mkExn KRuntimeError (py "RuntimeError") token_missing_message).
Proof. split; reflexivity. Qed.

(** C3, as amended.  When the token is set, the handler returns the
    truncation of a document that always holds the three headers, and the
    lines under each header are made from the outcome of that section's
    own lookup and from nothing else: a failing section never aborts the
    other two.  A lookup that raises, or that is answered with a status
    other than 200, puts the fixed placeholder under its own header.  In
    particular, when the transcription-summary lookup answers 200 with
    data from which a non-empty text is extracted, the action-items lookup
    raises, and the key-points lookup answers 200 with data from which a
    non-empty list is extracted, the document is made of the Summary
    section with the extracted text, the placeholder of the Action Items
    section and the Key Points section with one bullet per item; when
    that document is within the character budget it is returned as it
    is, and contains the three sections. *)
Theorem summary_sections_fail_independently
    (w : world) (cid : pystr) (hs : list (pystr * pystr)) :
  _auth_headers w = Ok hs ->
  jiminny_get_summary w cid
  = Ok (_truncate
          (summary_document
             (summary_lines (_try_get w hs cid (py "transcription-summary")))
             (action_item_lines (_try_get w hs cid (py "action-items")))
             (key_point_lines (_try_get w hs cid (py "key-points"))))) /\
  (forall outcome, lookup_failed outcome ->
     summary_lines outcome = [summary_unavailable] /\
     action_item_lines outcome = [action_items_unavailable] /\
     key_point_lines outcome
     = [match outcome with
        | Ok _ => key_points_unavailable
        | Raise _ => key_points_failed
        end]) /\
  (forall (d1 d3 : json) (dbg1 dbg3 : pystr) (e : exn)
          (summary : pystr) (points : list pystr),
     _try_get w hs cid (py "transcription-summary") = Ok (200, d1, dbg1) ->
     truthy d1 = true ->
     _extract_text d1 (py "summary") = summary -> summary <> [] ->
     _try_get w hs cid (py "action-items") = Raise e ->
     _try_get w hs cid (py "key-points") = Ok (200, d3, dbg3) ->
     truthy d3 = true ->
     _extract_list_items d3 = points -> points <> [] ->
     jiminny_get_summary w cid = Ok (_truncate (degraded_report summary points)) /\
     (len (degraded_report summary points) <= CHARACTER_LIMIT ->
        jiminny_get_summary w cid = Ok (degraded_report summary points) /\
        contains (degraded_report summary points)
                 (py "## Summary" ++ nl ++ summary ++ nl) = true /\
        contains (degraded_report summary points)
                 (py "## Action Items" ++ nl ++ py "_Action items not available._" ++ nl) = true /\
        contains (degraded_report summary points)
                 (py "## Key Points" ++ nl ++ join nl (bullets points)) = true)).
Proof.
  intros Hhs. split; [|split].
  { unfold jiminny_get_summary. rewrite Hhs. cbn [bind].
    unfold summary_document.
    change (summary_section w hs cid)
      with (summary_lines (_try_get w hs cid (py "transcription-summary"))).
    change (action_items_section w hs cid)
      with (action_item_lines (_try_get w hs cid (py "action-items"))).
    change (key_points_section w hs cid)
      with (key_point_lines (_try_get w hs cid (py "key-points"))).
    do 2 f_equal. f_equal. now rewrite <- !app_assoc. }
  { intros [[[status data] attempts]|e] Hfail; cbn [lookup_failed] in Hfail.
    - apply Z.eqb_neq in Hfail.
      unfold summary_lines, action_item_lines, key_point_lines.
      rewrite Hfail. auto.
    - auto. }
  intros d1 d3 dbg1 dbg3 e summary points H1 T1 X1 N1 H2 H3 T3 X3 N3.
  assert (Hres : jiminny_get_summary w cid
                 = Ok (_truncate (degraded_report summary points))).
  { unfold jiminny_get_summary, summary_section, action_items_section,
      key_points_section. rewrite Hhs. cbn [bind].
    rewrite H1, H2, H3, T1, T3, X1, X3. cbn [Z.eqb Pos.eqb andb].
    destruct summary as [|c summary]; [contradiction|].
    destruct points as [|p points]; [contradiction|].
    reflexivity. }
  split; [exact Hres|]. intros Hlen.
  assert (Hb : bullets points <> []) by (destruct points; [contradiction|discriminate]).
  split; [|split; [|split]].
  - rewrite Hres. f_equal.
    apply truncate_within_budget. exact Hlen.
  - unfold degraded_report. rewrite join_app by (assumption || discriminate).
    cbn [join]. rewrite <- !app_assoc.
    do 4 apply contains_skip.
    rewrite !(app_assoc (py "## Summary")), !(app_assoc (_ ++ nl)),
      !(app_assoc (_ ++ summary)).
    rewrite <- !(app_assoc (py "## Summary")).
    apply (contains_app [] (py "## Summary" ++ nl ++ summary ++ nl)).
  - unfold degraded_report. rewrite join_app by (assumption || discriminate).
    cbn [join]. rewrite <- !app_assoc.
    do 10 apply contains_skip.
    apply (contains_app [] (py "## Action Items" ++ nl ++ py "_Action items not available._" ++ nl)).
  - unfold degraded_report. rewrite join_app by (assumption || discriminate).
    cbn [join]. rewrite <- !app_assoc.
    do 16 apply contains_skip.
    apply contains_refl.
Qed.

Lemma summary_sections_fail_independently_witness :
  jiminny_get_summary (sample_world short_summary_body) (py "c1")
  = Ok (degraded_report (py "The customer agreed to a pilot.")
          [py "Renewal is due in May"]).
Proof.
  refine (proj1 (proj2 (proj2 (proj2 (summary_sections_fail_independently
            (sample_world short_summary_body) (py "c1") sample_headers _))
            short_summary_body (JList [JStr (py "Renewal is due in May")])
            _ _ _ _ _ _ _ _ _ _ _ _ _ _) _)).
  - reflexivity.
  - vm_compute. reflexivity.
  - reflexivity.
  - reflexivity.
  - discriminate.
  - vm_compute. reflexivity.
  - vm_compute. reflexivity.
  - reflexivity.
  - reflexivity.
  - discriminate.
  - vm_compute. discriminate.
Defined.

(** C3, as stated, fails when the summary text alone exceeds the
    character budget: the three lookups behave as the claim supposes, and
    the returned report has neither the placeholder nor the Key Points
    section, which the truncation cut away. *)
Lemma summary_placeholder_cut_by_truncation :
  (forall body, truthy body = true ->
     _try_get (sample_world body) sample_headers (py "c1") (py "transcription-summary")
     = Ok (200, body,
           py "OK: https://app.jiminny.com/api/v1/activity/c1/transcription-summary")) /\
  truthy long_summary_body = true /\
  len (_extract_text long_summary_body (py "summary")) = 25001 /\
  (forall body, exists e,
     _try_get (sample_world body) sample_headers (py "c1") (py "action-items")
     = Raise e) /\
  (forall body,
     _try_get (sample_world body) sample_headers (py "c1") (py "key-points")
     = Ok (200, JList [JStr (py "Renewal is due in May")],
           py "OK: https://app.jiminny.com/api/v1/activity/c1/key-points")) /\
  match jiminny_get_summary (sample_world long_summary_body) (py "c1") with
  | Ok r =>
      contains r (py "## Summary") = true /\
      contains r (py "Action items not available.") = false /\
      contains r (py "## Key Points") = false
  | Raise _ => False
  end.
Proof.
  split; [intros body _; vm_compute; reflexivity|].
  split; [reflexivity|].
  split; [vm_compute; reflexivity|].
  split; [intros body; eexists; vm_compute; reflexivity|].
  split; [intros body; vm_compute; reflexivity|].
  assert (H : match jiminny_get_summary (sample_world long_summary_body) (py "c1") with
              | Ok r => contains r (py "## Summary")
                        && negb (contains r (py "Action items not available."))
                        && negb (contains r (py "## Key Points"))
              | Raise _ => false
              end = true) by (vm_compute; reflexivity).
  destruct (jiminny_get_summary (sample_world long_summary_body) (py "c1")) as [r|];
    [|discriminate].
  apply andb_prop in H as [H H3]. apply andb_prop in H as [H1 H2].
  apply negb_true_iff in H2, H3. auto.
Qed.

(* ------------------------------------------------------------------ *)
(** ** Properties that hold for every Python runtime *)
(* ------------------------------------------------------------------ *)

Section RuntimeProperties.

Variable py_repr : json -> pystr.
Variable float_of_str : pystr -> option pyfloat.

(** *** The two handlers with a [try] around their body *)

Lemma list_conversations_always_returns (w : world) (page : Z) :
  exists s, jiminny_list_conversations py_repr w page = Ok s.
Proof.
  unfold jiminny_list_conversations, try_except.
  destruct (bind _ _); eauto.
Qed.

Lemma get_transcript_always_returns (w : world) (cid : pystr) :
  exists s, jiminny_get_transcript py_repr float_of_str w cid = Ok s.
Proof.
  unfold jiminny_get_transcript, try_except.
  destruct (transcript_body _ _ _ _); eauto.
Qed.

(** With the token unset the two of them return the message of
    [_get_token] as their result. *)
Lemma get_transcript_without_token upstream (cid : pystr) :
  jiminny_get_transcript py_repr float_of_str (mkWorld None upstream) cid
  = Ok token_missing_message.
Proof. reflexivity. Qed.

Lemma list_conversations_without_token upstream (page : Z) :
  jiminny_list_conversations py_repr (mkWorld None upstream) page
  = Ok token_missing_message.
Proof. reflexivity. Qed.

(** *** The conversation list *)

(** C7. For a response whose [results] is the empty sequence (and whose
    [pagination], when present, is an object), the formatter returns the
    page header, the blank line that closes it, and the line
    [No conversations found.]; nothing follows, and the text is not
    passed through the truncation. *)
Theorem empty_results_message (data pg : list (pystr * json)) :
  get_or data (py "results") (JList []) = JList [] ->
  get_or data (py "pagination") (JDict []) = JDict pg ->
  _format_conversation_list py_repr (JDict data)
  = Ok (list_header py_repr (get_or pg (py "current") (JInt 1))
                            (get_or pg (py "total") (JInt 0))
        ++ nl ++ nl ++ py "No conversations found.").
Proof.
  intros Hres Hpg. unfold _format_conversation_list, dot_get.
  cbn [bind]. rewrite Hres, Hpg. reflexivity.
Qed.

(** *** Container keys of the transcript payload *)

Lemma py_or_l (a b : json) : truthy a = true -> py_or a b = a.
Proof. unfold py_or. now intros ->. Qed.

Lemma py_or_r (a b : json) : truthy a = false -> py_or a b = b.
Proof. unfold py_or. now intros ->. Qed.

Lemma select_segments_first_truthy (d : list (pystr * json)) :
  select_segments (JDict d)
  = match find truthy (map (get d) segment_keys) with
    | Some v => v
    | None => JList []
    end.
Proof.
  unfold select_segments. cbn [segment_keys map find].
  destruct (truthy (get d (py "segments"))) eqn:E1;
    [now rewrite !(py_or_l _ _ E1) | rewrite (py_or_r _ _ E1)].
  destruct (truthy (get d (py "entries"))) eqn:E2;
    [now rewrite !(py_or_l _ _ E2) | rewrite (py_or_r _ _ E2)].
  destruct (truthy (get d (py "data"))) eqn:E3;
    [now rewrite !(py_or_l _ _ E3) | rewrite (py_or_r _ _ E3)].
  destruct (truthy (get d (py "results"))) eqn:E4;
    [now rewrite !(py_or_l _ _ E4) | now rewrite (py_or_r _ _ E4)].
Qed.

(** C10. The probing takes the first of [segments], [entries], [data],
    [results] whose value is truthy.  When every key of higher priority
    than the [i]-th is absent or maps to a falsy value (an empty list,
    [null], 0, ...), and the [i]-th maps to a non-empty list, that list
    is the segment sequence: the handler returns its rendering. *)
Theorem lower_priority_segments_are_used
    (w : world) (cid : pystr) (d : list (pystr * json))
    (before after : list pystr) (key : pystr) (seg : json) (rest : list json) :
  segment_keys = before ++ key :: after ->
  Forall (fun k => truthy (get d k) = false) before ->
  get d key = JList (seg :: rest) ->
  select_segments (JDict d) = JList (seg :: rest) /\
  (_api_get w (py "activity/" ++ cid ++ py "/transcription") [] = Ok (JDict d) ->
   jiminny_get_transcript py_repr float_of_str w cid
   = try_except
       (render_segments py_repr float_of_str (_get_participant_names w cid) (seg :: rest))
       (fun e => Ok (_handle_error e))).
Proof.
  intros Hkeys Hfalsy Hget.
  assert (Hsel : select_segments (JDict d) = JList (seg :: rest)).
  { rewrite select_segments_first_truthy, Hkeys, map_app. cbn [map].
    clear Hkeys. induction Hfalsy as [|k before' Hk _ IH]; cbn [app map find].
    - now rewrite Hget.
    - rewrite Hk. exact IH. }
  split; [exact Hsel|]. intros Hapi.
  unfold jiminny_get_transcript, transcript_body.
  rewrite Hapi. cbn [bind]. rewrite Hsel. reflexivity.
Qed.

(** *** One iteration of the segment loop *)



(** *** Start offsets and timestamps *)

Lemma fmt_02d_two_digits (secs : Z) :
  0 <= secs < 60 -> fmt_02d secs = two_digits secs.
Proof.
  intros H.
  assert (Hall : forallb (fun n => str_eqb (fmt_02d (Z.of_nat n))
                                           (two_digits (Z.of_nat n)))
                         (seq 0 60) = true) by (vm_compute; reflexivity).
  rewrite forallb_forall in Hall.
  specialize (Hall (Z.to_nat secs)).
  rewrite Z2Nat.id in Hall by lia.
  apply str_eqb_eq, Hall, in_seq. lia.
Qed.



(** *** Keys, first appearances and numbering *)

Lemma hkey_eqb_eq (a b : hkey) : hkey_eqb a b = true <-> a = b.
Proof. unfold hkey_eqb. destruct (hkey_eq_dec a b); split; congruence. Qed.

Lemma hkey_eqb_neq (a b : hkey) : hkey_eqb a b = false <-> a <> b.
Proof. unfold hkey_eqb. destruct (hkey_eq_dec a b); split; congruence. Qed.

Lemma existsb_hkey (k : hkey) (l : list hkey) :
  existsb (hkey_eqb k) l = true <-> In k l.
Proof.
  rewrite existsb_exists. split.
  - intros (x & Hin & Heq). apply hkey_eqb_eq in Heq. now subst.
  - intros Hin. exists k. split; [assumption|now apply hkey_eqb_eq].
Qed.

Lemma see_cases (seen : list hkey) (k : hkey) :
  (In k seen /\ see seen k = seen) \/ (~ In k seen /\ see seen k = seen ++ [k]).
Proof.
  unfold see. destruct (existsb (hkey_eqb k) seen) eqn:E.
  - left. split; [now apply existsb_hkey|reflexivity].
  - right. split; [|reflexivity].
    intros Hin. apply existsb_hkey in Hin. congruence.
Qed.

Lemma in_see (seen : list hkey) (k : hkey) : In k (see seen k).
Proof.
  destruct (see_cases seen k) as [[H ->]|[_ ->]]; [assumption|].
  apply in_or_app. right. now left.
Qed.

Lemma rank_app_in (k : hkey) (a b : list hkey) :
  In k a -> rank k (a ++ b) = rank k a.
Proof.
  induction a as [|x a IH]; intros Hin; [contradiction|].
  cbn [app rank]. destruct (hkey_eqb x k) eqn:E; [reflexivity|].
  rewrite IH; [reflexivity|].
  destruct Hin as [->|Hin]; [|assumption].
  apply hkey_eqb_neq in E. contradiction.
Qed.

Lemma rank_snoc (k : hkey) (a : list hkey) :
  ~ In k a -> rank k (a ++ [k]) = len a + 1.
Proof.
  induction a as [|x a IH]; intros Hout.
  - cbn. unfold hkey_eqb. destruct (hkey_eq_dec k k); [reflexivity|contradiction].
  - cbn [app rank]. destruct (hkey_eqb x k) eqn:E.
    + apply hkey_eqb_eq in E. subst. exfalso. apply Hout. now left.
    + rewrite IH by (intros Hin; apply Hout; now right).
      unfold len. cbn [List.length]. lia.
Qed.

Lemma rank_see (k k' : hkey) (seen : list hkey) :
  In k seen -> rank k (see seen k') = rank k seen.
Proof.
  intros Hin. destruct (see_cases seen k') as [[_ ->]|[_ ->]]; [reflexivity|].
  now apply rank_app_in.
Qed.

Lemma in_see_mono (k k' : hkey) (seen : list hkey) :
  In k seen -> In k (see seen k').
Proof.
  intros Hin. destruct (see_cases seen k') as [[_ ->]|[_ ->]]; [assumption|].
  apply in_or_app. now left.
Qed.

Lemma rank_fold_see (k : hkey) (ks seen : list hkey) :
  In k seen -> rank k (fold_left see ks seen) = rank k seen.
Proof.
  revert seen. induction ks as [|k' ks IH]; intros seen Hin; [reflexivity|].
  cbn [fold_left]. rewrite IH by now apply in_see_mono.
  now apply rank_see.
Qed.

Lemma find_numbering_in (k : hkey) (seen : list hkey) (from : Z) :
  In k seen ->
  kdict_find (numbering from seen) k = Some (speaker_label (from + rank k seen)).
Proof.
  revert from. induction seen as [|x seen IH]; intros from Hin; [contradiction|].
  cbn [numbering kdict_find rank]. destruct (hkey_eqb x k) eqn:E; [reflexivity|].
  rewrite IH.
  - do 2 f_equal. lia.
  - destruct Hin as [->|Hin]; [|assumption].
    apply hkey_eqb_neq in E. contradiction.
Qed.

Lemma find_numbering_out (k : hkey) (seen : list hkey) (from : Z) :
  ~ In k seen -> kdict_find (numbering from seen) k = None.
Proof.
  revert from. induction seen as [|x seen IH]; intros from Hout; [reflexivity|].
  cbn [numbering kdict_find]. destruct (hkey_eqb x k) eqn:E.
  - apply hkey_eqb_eq in E. subst. exfalso. apply Hout. now left.
  - apply IH. intros Hin. apply Hout. now right.
Qed.

Lemma set_numbering (k : hkey) (seen : list hkey) (from : Z) :
  ~ In k seen ->
  kdict_set (numbering from seen) k (speaker_label (from + len seen + 1))
  = numbering from (seen ++ [k]).
Proof.
  revert from. induction seen as [|x seen IH]; intros from Hout.
  - cbn [numbering kdict_set app]. unfold len. cbn [List.length].
    replace (from + Z.of_nat 0 + 1) with (from + 1) by lia. reflexivity.
  - cbn [numbering kdict_set app]. destruct (hkey_eqb x k) eqn:E.
    + apply hkey_eqb_eq in E. subst. exfalso. apply Hout. now left.
    + f_equal. rewrite <- IH by (intros Hin; apply Hout; now right).
      do 2 f_equal. unfold len. cbn [List.length]. lia.
Qed.

(** The label an unresolved id receives, given the ids seen so far. *)
Lemma resolve_speaker_unresolved (names : kdict json) (seen : list hkey)
    (pid : json) (k : hkey) :
  py_hash pid = Ok k ->
  kdict_find names k = None ->
  resolve_speaker names (len seen) (numbering 0 seen) pid
  = Ok (JStr (speaker_label (rank k (see seen k))),
        len (see seen k), numbering 0 (see seen k)).
Proof.
  intros Hk Hnone. unfold resolve_speaker. rewrite Hk. cbn [bind].
  rewrite Hnone.
  destruct (see_cases seen k) as [[Hin ->]|[Hout ->]].
  - rewrite (find_numbering_in k seen 0 Hin). reflexivity.
  - rewrite (find_numbering_out k seen 0 Hout).
    rewrite rank_snoc by assumption.
    rewrite <- set_numbering by assumption.
    rewrite len_app. reflexivity.
Qed.

(** *** Labels of unresolved speakers *)

Lemma label_segments_first_seen (names : kdict json) (segments : list json) :
  forall (seen : list hkey) us counter labels,
    (forall k, In k (kept_keys segments) -> kdict_find names k = None) ->
    label_segments py_repr float_of_str names (len seen) (numbering 0 seen) segments
    = Ok (us, counter, labels) ->
    let all := fold_left see (kept_keys segments) seen in
    map (fun u : utterance => fst (fst u)) us
    = map (fun k => JStr (speaker_label (rank k all))) (kept_keys segments) /\
    counter = len all /\ labels = numbering 0 all.
Proof.
  induction segments as [|seg rest IH]; intros seen us counter labels Hnames H.
  - cbn in H. injection H as <- <- <-. cbn. auto.
  - destruct seg as [| | | | | |d];
      try (cbn [label_segments] in H; apply (IH seen us counter labels Hnames H)).
    cbn [label_segments] in H. unfold kept_keys in *.
    cbn [flat_map segment_key] in *.
    destruct (segment_text d) as [| | | |t| |] eqn:Et; try discriminate H.
    cbn [dot_strip bind] in H.
    destruct (strip t) as [|c stripped] eqn:Es.
    + apply (IH seen us counter labels Hnames H).
    + destruct (py_hash (segment_pid d)) as [k|e] eqn:Ek.
      2:{ unfold resolve_speaker in H. rewrite Ek in H. discriminate H. }
      cbn [app] in *.
      rewrite (resolve_speaker_unresolved names seen _ k Ek) in H
        by (apply Hnames; now left).
      cbn [bind] in H.
      destruct (segment_timestamp py_repr float_of_str (segment_start d))
        as [timestamp|]; [|discriminate H].
      cbn [bind] in H.
      destruct (label_segments py_repr float_of_str names (len (see seen k))
                  (numbering 0 (see seen k)) rest)
        as [[[more counter'] labels']|] eqn:Erest; [|discriminate H].
      cbn [bind] in H. injection H as <- <- <-.
      destruct (IH (see seen k) more counter' labels') as (Hus & Hc & Hl).
      { intros k' Hin. apply Hnames. now right. }
      { exact Erest. }
      cbn [fold_left map fst]. rewrite Hus.
      rewrite (rank_fold_see k _ (see seen k) (in_see seen k)).
      auto.
Qed.

(** *** The loop is labelling followed by emission *)

Lemma segment_loop_factor (names : kdict json) (segments : list json) :
  forall st,
    segment_loop py_repr float_of_str names st segments
    = ('(us, counter, labels) <-
         label_segments py_repr float_of_str names
           (speaker_counter st) (auto_names st) segments ;;
       Ok (mkLoop counter labels
             (lines st ++ fst (entries_from py_repr (prev_speaker st) us))
             (snd (entries_from py_repr (prev_speaker st) us)))).
Proof.
  induction segments as [|seg rest IH]; intros st.
  - cbn. destruct st. cbn. now rewrite app_nil_r.
  - destruct seg as [| | | | | |d];
      try (cbn [segment_loop loop_body label_segments bind]; apply IH).
    cbn [segment_loop label_segments]. unfold loop_body.
    destruct (segment_text d) as [| | | |t| |] eqn:Et; try reflexivity.
    cbn [dot_strip bind].
    destruct (strip t) as [|c stripped] eqn:Es; [apply IH|].
    destruct (resolve_speaker names (speaker_counter st) (auto_names st)
                (segment_pid d)) as [[[speaker counter] labels]|]; [|reflexivity].
    cbn [bind].
    destruct (segment_timestamp py_repr float_of_str (segment_start d))
      as [timestamp|]; [|reflexivity].
    cbn [bind py_str]. rewrite IH. unfold emit.
    cbn [speaker_counter auto_names lines prev_speaker].
    destruct (py_eq speaker (prev_speaker st)) eqn:Eeq;
      cbn [negb speaker_counter auto_names lines prev_speaker];
      (destruct (label_segments py_repr float_of_str names counter labels rest)
         as [[[more counter'] labels']|]; [|reflexivity]);
      cbn [bind entries_from]; rewrite Eeq; cbn [negb].
    + destruct (entries_from py_repr (prev_speaker st) more) as [es last].
      cbn [fst snd]. now rewrite <- app_assoc.
    + destruct (entries_from py_repr speaker more) as [es last].
      cbn [fst snd]. now rewrite <- app_assoc.
Qed.

(** C4. When no participant id of the kept segments has a name in the
    map, the loop labels them in order of first appearance: the speaker
    of each kept segment is [Speaker n], where [n] is the rank of its id
    among the distinct ids in the order in which they first appear, so a
    repeated id gets the label it got before; the table of automatic
    labels the loop ends with numbers the distinct ids in that order.  In
    particular ids A, A, B, A are labelled Speaker 1, Speaker 1,
    Speaker 2, Speaker 1. *)
Theorem auto_labels_follow_first_appearance
    (names : kdict json) (segments : list json) (st : loop_state) :
  (forall k, In k (kept_keys segments) -> kdict_find names k = None) ->
  segment_loop py_repr float_of_str names loop_init segments = Ok st ->
  (exists us,
     label_segments py_repr float_of_str names 0 [] segments
     = Ok (us, speaker_counter st, auto_names st) /\
     map (fun u : utterance => fst (fst u)) us
     = map (fun k => JStr (speaker_label (rank k (first_seen (kept_keys segments)))))
           (kept_keys segments) /\
     auto_names st = numbering 0 (first_seen (kept_keys segments)) /\
     speaker_counter st = len (first_seen (kept_keys segments))) /\
  (exists us counter labels,
     label_segments py_repr float_of_str [] 0 [] four_segments
     = Ok (us, counter, labels) /\
     map (fun u : utterance => fst (fst u)) us
     = [JStr (py "Speaker 1"); JStr (py "Speaker 1");
        JStr (py "Speaker 2"); JStr (py "Speaker 1")]).
Proof.
  intros Hnames Hloop. split.
  - rewrite segment_loop_factor in Hloop. cbn [loop_init speaker_counter auto_names] in Hloop.
    destruct (label_segments py_repr float_of_str names 0 [] segments)
      as [[[us counter] labels]|] eqn:El; [|discriminate Hloop].
    cbn [bind] in Hloop. injection Hloop as <-.
    cbn [speaker_counter auto_names].
    destruct (label_segments_first_seen names segments [] us counter labels Hnames El)
      as (Hus & Hc & Hl).
    exists us. unfold first_seen. auto.
  - do 3 eexists. split; vm_compute; reflexivity.
Qed.

(** *** Blocks *)

Lemma num_key_not_none (m e : Z) : num_key m e <> HNone.
Proof.
  unfold num_key. destruct m as [|p|p]; [discriminate| |];
    destruct (pos_odd_part p e); discriminate.
Qed.

Lemma truthy_not_none (v : json) : truthy v = true -> py_eq v JNull = false.
Proof.
  destruct v as [|b|z|m e|s|l|d]; cbn [truthy]; intros H;
    try discriminate H; try reflexivity;
    cbn [py_eq py_hash]; apply hkey_eqb_neq, num_key_not_none.
Qed.

Lemma kdict_find_in {V} (d : kdict V) (k : hkey) (v : V) :
  kdict_find d k = Some v -> exists k', In (k', v) d.
Proof.
  induction d as [|[k' v'] d IH]; cbn [kdict_find]; [discriminate|].
  destruct (hkey_eqb k' k).
  - intros [= ->]. exists k'. now left.
  - intros H. destruct (IH H) as [k'' Hin]. exists k''. now right.
Qed.

Lemma resolve_speaker_not_none (names : kdict json) counter labels pid
    speaker counter' labels' :
  Forall (fun kv => truthy (snd kv) = true) names ->
  resolve_speaker names counter labels pid = Ok (speaker, counter', labels') ->
  py_eq speaker JNull = false.
Proof.
  intros Hnames. unfold resolve_speaker.
  destruct (py_hash pid) as [k|]; [|discriminate]. cbn [bind].
  destruct (kdict_find names k) as [name|] eqn:En.
  - intros [= <- _ _]. apply truthy_not_none.
    destruct (kdict_find_in _ _ _ En) as [k' Hin].
    rewrite Forall_forall in Hnames. apply (Hnames _ Hin).
  - destruct (kdict_find labels k); intros [= <- _ _]; reflexivity.
Qed.

Lemma label_segments_not_none (names : kdict json) (segments : list json) :
  Forall (fun kv => truthy (snd kv) = true) names ->
  forall counter labels us counter' labels',
    label_segments py_repr float_of_str names counter labels segments
    = Ok (us, counter', labels') ->
    Forall (fun u : utterance => py_eq (fst (fst u)) JNull = false) us.
Proof.
  intros Hnames.
  induction segments as [|seg rest IH]; intros counter labels us counter' labels' H.
  - cbn in H. injection H as <- _ _. constructor.
  - destruct seg as [| | | | | |d];
      try (cbn [label_segments] in H; apply (IH _ _ _ _ _ H)).
    cbn [label_segments] in H.
    destruct (segment_text d) as [| | | |t| |]; try discriminate H.
    cbn [dot_strip bind] in H.
    destruct (strip t) as [|c stripped]; [apply (IH _ _ _ _ _ H)|].
    destruct (resolve_speaker names counter labels (segment_pid d))
      as [[[speaker c1] l1]|] eqn:Er; [|discriminate H].
    cbn [bind] in H.
    destruct (segment_timestamp py_repr float_of_str (segment_start d))
      as [timestamp|]; [|discriminate H].
    cbn [bind] in H.
    destruct (label_segments py_repr float_of_str names c1 l1 rest)
      as [[[more c2] l2]|] eqn:Erest; [|discriminate H].
    cbn [bind] in H. injection H as <- _ _.
    constructor; [|apply (IH _ _ _ _ _ Erest)].
    cbn [fst]. apply (resolve_speaker_not_none _ _ _ _ _ _ _ Hnames Er).
Qed.

Lemma entries_group (us : list utterance) :
  forall cur : block,
    render_block py_repr cur ++ fst (entries_from py_repr (block_speaker cur) us)
    = flat_map (render_block py_repr) (group_from cur us).
Proof.
  induction us as [|[[speaker timestamp] text] rest IH]; intros cur.
  - cbn. reflexivity.
  - cbn [entries_from group_from].
    destruct (py_eq speaker (block_speaker cur)) eqn:Eeq; cbn [negb].
    + rewrite <- IH. cbn [block_speaker].
      destruct (entries_from py_repr (block_speaker cur) rest) as [es last].
      cbn [fst]. unfold render_block.
      cbn [block_speaker block_timestamp block_first block_more].
      cbn [app]. now rewrite <- app_assoc.
    + cbn [flat_map]. rewrite <- IH. cbn [block_speaker].
      destruct (entries_from py_repr speaker rest) as [es last].
      cbn [fst]. reflexivity.
Qed.

(** The names [_get_participant_names] stores are truthy. *)
Lemma kdict_set_truthy (d : kdict json) (k : hkey) (v : json) :
  Forall (fun kv => truthy (snd kv) = true) d -> truthy v = true ->
  Forall (fun kv => truthy (snd kv) = true) (kdict_set d k v).
Proof.
  intros Hd Hv. induction Hd as [|[k' v'] d Hx Hd IH]; cbn [kdict_set].
  - constructor; [exact Hv|constructor].
  - destruct (hkey_eqb k' k); constructor; assumption.
Qed.

Lemma collect_names_truthy (participants : list json) :
  forall mapping,
    Forall (fun kv => truthy (snd kv) = true) mapping ->
    Forall (fun kv => truthy (snd kv) = true) (collect_names participants mapping).
Proof.
  induction participants as [|p rest IH]; intros mapping Hm; [exact Hm|].
  destruct p as [| | | | | |d]; cbn [collect_names]; try (apply IH; exact Hm).
  match goal with |- context [truthy ?pid && truthy ?name] =>
    destruct (truthy pid); cbn [andb]; [|apply IH; exact Hm];
    destruct (truthy name) eqn:Hn; [|apply IH; exact Hm];
    destruct (py_hash pid); [|exact Hm]
  end.
  apply IH. apply kdict_set_truthy; assumption.
Qed.

Lemma participant_names_truthy (w : world) (cid : pystr) :
  Forall (fun kv => truthy (snd kv) = true) (_get_participant_names w cid).
Proof.
  unfold _get_participant_names.
  destruct (_api_get _ _ _) as [data|]; [|constructor].
  match goal with |- context [match ?r with Ok _ => _ | Raise _ => _ end] =>
    destruct r as [[| | | | |ps|]|]; try constructor
  end.
  apply collect_names_truthy. constructor.
Qed.

(** C5. The entries the loop appends are the blocks of the utterances:
    consecutive utterances of one speaker form one block, printed as one
    header line with the first text followed by the other texts, and an
    utterance of another speaker opens a new block with its own header.
    The segments (A, hi), (A, there) are printed as one block, headed
    [**Speaker 1** [0:05]:], that holds both texts. *)
Theorem consecutive_speaker_segments_share_header
    (names : kdict json) (segments : list json) (st : loop_state) :
  Forall (fun kv => truthy (snd kv) = true) names ->
  segment_loop py_repr float_of_str names loop_init segments = Ok st ->
  (exists us,
     label_segments py_repr float_of_str names 0 [] segments
     = Ok (us, speaker_counter st, auto_names st) /\
     lines st
     = [transcript_title; []] ++ flat_map (render_block py_repr) (group_runs us)) /\
  segment_loop py_repr float_of_str [] loop_init two_segments
  = Ok (mkLoop 1 [(HStr (py "A"), py "Speaker 1")]
          [transcript_title; [];
           nl ++ py "**Speaker 1** [0:05]:" ++ nl ++ py "hi";
           py "there"]
          (JStr (py "Speaker 1"))) /\
  render_segments py_repr float_of_str [] two_segments
  = Ok (py "# Transcript" ++ nl ++ nl
        ++ py "_Note: 1 speakers detected (names could not be resolved)_"
        ++ nl ++ nl ++ nl
        ++ py "**Speaker 1** [0:05]:" ++ nl ++ py "hi" ++ nl ++ py "there").
Proof.
  intros Hnames Hloop. split; [|split; vm_compute; reflexivity].
  rewrite segment_loop_factor in Hloop.
  cbn [loop_init speaker_counter auto_names lines prev_speaker] in Hloop.
  destruct (label_segments py_repr float_of_str names 0 [] segments)
    as [[[us counter] labels]|] eqn:El; [|discriminate Hloop].
  cbn [bind] in Hloop. injection Hloop as <-.
  cbn [speaker_counter auto_names lines].
  exists us. split; [reflexivity|]. f_equal.
  pose proof (label_segments_not_none names segments Hnames _ _ _ _ _ El) as Hnn.
  destruct us as [|[[speaker timestamp] text] rest]; [reflexivity|].
  inversion Hnn as [|u l Hhead _]; subst. cbn [fst] in Hhead.
  cbn [entries_from group_runs]. rewrite Hhead. cbn [negb].
  rewrite <- entries_group. cbn [block_speaker].
  destruct (entries_from py_repr speaker rest) as [es last]. reflexivity.
Qed.

End RuntimeProperties.

(* ------------------------------------------------------------------ *)
(** ** Sample evaluations *)
(* ------------------------------------------------------------------ *)

Lemma empty_results_message_witness :
  _format_conversation_list sample_repr (JDict empty_page)
  = Ok (py "# Jiminny Conversations (page 3, 0 total)" ++ nl ++ nl
        ++ py "No conversations found.").
Proof.
  apply (empty_results_message sample_repr empty_page
           [(py "total", JInt 0); (py "current", JInt 3); (py "next", JNull)]);
    reflexivity.
Defined.

Lemma lower_priority_segments_are_used_witness :
  select_segments (JDict sparse_payload) = JList [sample_segment "A" "hi" (JInt 5)] /\
  jiminny_get_transcript sample_repr sample_float_of_str
    (transcript_world (JDict sparse_payload)) (py "c1")
  = try_except
      (render_segments sample_repr sample_float_of_str
         (_get_participant_names (transcript_world (JDict sparse_payload)) (py "c1"))
         [sample_segment "A" "hi" (JInt 5)])
      (fun e => Ok (_handle_error e)).
Proof.
  destruct (lower_priority_segments_are_used sample_repr sample_float_of_str
              (transcript_world (JDict sparse_payload)) (py "c1") sparse_payload
              [py "segments"; py "entries"] [py "results"] (py "data")
              (sample_segment "A" "hi" (JInt 5)) []) as [Hsel Hrun].
  - reflexivity.
  - repeat constructor.
  - reflexivity.
  - split; [exact Hsel|]. apply Hrun. vm_compute. reflexivity.
Defined.


Lemma auto_labels_follow_first_appearance_witness :
  exists us,
    label_segments sample_repr sample_float_of_str [] 0 [] four_segments
    = Ok (us, 2, [(HStr (py "A"), py "Speaker 1"); (HStr (py "B"), py "Speaker 2")]) /\
    map (fun u : utterance => fst (fst u)) us
    = map (fun k => JStr (speaker_label (rank k (first_seen (kept_keys four_segments)))))
          (kept_keys four_segments) /\
    auto_names four_segments_final = numbering 0 (first_seen (kept_keys four_segments)) /\
    speaker_counter four_segments_final = len (first_seen (kept_keys four_segments)).
Proof.
  apply (proj1 (auto_labels_follow_first_appearance sample_repr sample_float_of_str
                  [] four_segments four_segments_final
                  (fun k _ => eq_refl) eq_refl)).
Defined.

Lemma consecutive_speaker_segments_share_header_witness :
  exists us,
    label_segments sample_repr sample_float_of_str [] 0 [] two_segments
    = Ok (us, 1, [(HStr (py "A"), py "Speaker 1")]) /\
    lines two_segments_final
    = [transcript_title; []]
      ++ flat_map (render_block sample_repr) (group_runs us).
Proof.
  apply (proj1 (consecutive_speaker_segments_share_header sample_repr
                  sample_float_of_str [] two_segments two_segments_final
                  (Forall_nil _) eq_refl)).
Defined.



(* ================================================================== *)
(** * Further properties of the helpers and handlers *)
(* ================================================================== *)

(** ** [_truncate] *)

Lemma startswith_app_l (a b p : pystr) :
  startswith a p = true -> startswith (a ++ b) p = true.
Proof.
  revert a. induction p as [|c p IH]; intros a H; [now destruct (a ++ b)|].
  destruct a as [|d a]; [discriminate H|].
  cbn [app startswith] in *. apply andb_prop in H as [-> H]. now apply IH.
Qed.

Lemma startswith_firstn (n : nat) (a p : pystr) :
  startswith a p = true -> (List.length p <= n)%nat ->
  startswith (firstn n a) p = true.
Proof.
  revert n a. induction p as [|c p IH]; intros n a H Hn;
    [now destruct (firstn n a)|].
  destruct a as [|d a]; [discriminate H|].
  destruct n as [|n]; [cbn in Hn; lia|].
  cbn [firstn startswith] in *. apply andb_prop in H as [-> H].
  apply IH; [assumption|cbn in Hn; lia].
Qed.

Lemma startswith_truncate (text p : pystr) :
  startswith text p = true -> len p <= CHARACTER_LIMIT ->
  startswith (_truncate text) p = true.
Proof.
  intros H Hp. unfold _truncate.
  destruct (len text <=? CHARACTER_LIMIT); [assumption|].
  apply startswith_app_l, startswith_firstn; [assumption|].
  unfold len in Hp. lia.
Qed.

Lemma len_truncate (text : pystr) :
  len (_truncate text) <= CHARACTER_LIMIT + len truncation_suffix.
Proof.
  unfold _truncate.
  destruct (Z.leb_spec (len text) CHARACTER_LIMIT) as [Hle|Hgt].
  - assert (0 <= len truncation_suffix) by (unfold len; lia). lia.
  - rewrite len_app, len_slice_to; [lia|]. unfold CHARACTER_LIMIT in *. lia.
Qed.

(** X1. Whatever the text, [_truncate] returns at most 25,053 characters
    (the budget plus the notice), and the first 25,000 characters of its
    result are the first 25,000 characters of the text: the cut removes
    a tail and alters nothing before it. *)
Theorem truncate_bounded_and_prefix_preserving (text : pystr) :
  len (_truncate text) <= 25053 /\
  slice_to CHARACTER_LIMIT (_truncate text) = slice_to CHARACTER_LIMIT text.
Proof.
  split.
  - pose proof (len_truncate text) as H.
    change (len truncation_suffix) with 53 in H. unfold CHARACTER_LIMIT in H. lia.
  - unfold _truncate.
    destruct (Z.leb_spec (len text) CHARACTER_LIMIT) as [Hle|Hgt]; [reflexivity|].
    unfold slice_to. rewrite firstn_app, firstn_firstn, Nat.min_id.
    rewrite length_firstn, Nat.min_l by (unfold len in Hgt; lia).
    rewrite Nat.sub_diag. cbn [firstn]. apply app_nil_r.
Qed.

(** ** [_handle_error] *)

(** X2. Every message of [_handle_error] starts with [Error: ], with one
    exception: a [RuntimeError] whose text mentions [JIMINNY_TOKEN] is
    returned as its own text, unprefixed. *)
Theorem handle_error_prefix (e : exn) :
  (exn_kind_of e = KRuntimeError /\
   contains (exn_str e) (py "JIMINNY_TOKEN") = true /\
   _handle_error e = exn_str e) \/
  startswith (_handle_error e) (py "Error: ") = true.
Proof.
  unfold _handle_error. destruct (exn_kind_of e) as [|status| |] eqn:Ek.
  - destruct (contains (exn_str e) (py "JIMINNY_TOKEN")) eqn:Ec.
    + left. auto.
    + right. apply (startswith_app (py "Error: ")).
  - right.
    destruct (status =? 401); [reflexivity|].
    destruct (status =? 403); [reflexivity|].
    destruct (status =? 404); [reflexivity|].
    destruct (status =? 429); [reflexivity|].
    unfold msg_status.
    change (py "Error: Jiminny API returned status ")
      with (py "Error: " ++ py "Jiminny API returned status ").
    rewrite <- app_assoc. apply startswith_app.
  - right. reflexivity.
  - right. apply (startswith_app (py "Error: ")).
Qed.

(** ** [_api_get] *)

Lemma auth_headers_ok (w : world) (hs : list (pystr * pystr)) :
  _auth_headers w = Ok hs <->
  exists token, JIMINNY_TOKEN w = Some token /\ token <> [] /\ hs = headers_for token.
Proof.
  unfold _auth_headers, _get_token. split.
  - destruct (JIMINNY_TOKEN w) as [[|c token]|]; cbn; try discriminate.
    intros [= <-]. exists (c :: token). repeat split. discriminate.
  - intros (token & -> & Hne & ->). destruct token; [contradiction|reflexivity].
Qed.

(** X3. [_api_get] returns a document exactly when the token is set and
    not empty, the upstream answers the request for
    [API_BASE_URL/path], sent with the bearer token and the two JSON
    headers, with a status from 200 to 299, and the body decodes to that
    document. *)
Theorem api_get_succeeds_iff (w : world) (path : pystr)
    (params : list (pystr * json)) (data : json) :
  _api_get w path params = Ok data <->
  exists token r,
    JIMINNY_TOKEN w = Some token /\ token <> [] /\
    http_get w (mkRequest (API_BASE_URL ++ py "/" ++ path) (headers_for token) params)
    = Ok r /\
    200 <= status_code r <= 299 /\
    json_body r = Ok data.
Proof.
  unfold _api_get. split.
  - destruct (_auth_headers w) as [hs|] eqn:Eh; [|discriminate].
    apply auth_headers_ok in Eh as (token & Et & Hne & ->). cbn [bind].
    destruct (http_get w _) as [r|] eqn:Er; [|discriminate]. cbn [bind].
    unfold raise_for_status.
    destruct (Z.leb_spec 200 (status_code r)); [|discriminate].
    destruct (Z.leb_spec (status_code r) 299); [|discriminate].
    cbn [andb bind]. intros Hb. exists token, r. repeat split; assumption.
  - intros (token & r & Et & Hne & Er & [H1 H2] & Hb).
    rewrite (proj2 (auth_headers_ok w (headers_for token))) by eauto.
    cbn [bind]. rewrite Er. cbn [bind]. unfold raise_for_status.
    destruct (Z.leb_spec 200 (status_code r)); [|lia].
    destruct (Z.leb_spec (status_code r) 299); [|lia].
    exact Hb.
Qed.

Lemma api_get_succeeds_iff_witness :
  _api_get (world_with (status_upstream 204)) (py "page/on-demand") [] = Ok (JDict []).
Proof.
  apply (proj2 (api_get_succeeds_iff (world_with (status_upstream 204))
                  (py "page/on-demand") [] (JDict []))).
  exists (py "secret"), (mkResponse 204 (py "status") (Ok (JDict []))).
  repeat split; try reflexivity; try discriminate.
Defined.

(** ** The summary lookups *)

(** X4. [_try_get] asks the [activity/] address first and the
    [conference/] address only when the first answer has a status other
    than 200.  An answer with status 200 ends the lookup with its decoded
    body (or with the decoding error); a transport failure on either
    address fails the whole lookup, the first one without the second
    address being tried; two answers other than 200 give the status of
    the second and no data. *)
Theorem try_get_fallback_order
    (w : world) (hs : list (pystr * pystr)) (cid suffix : pystr) :
  let url1 := lookup_url (py "activity/") cid suffix in
  let url2 := lookup_url (py "conference/") cid suffix in
  (forall r1, http_get w (mkRequest url1 hs []) = Ok r1 -> status_code r1 = 200 ->
     _try_get w hs cid suffix
     = (data <- json_body r1 ;; Ok (200, data, py "OK: " ++ url1))) /\
  (forall e, http_get w (mkRequest url1 hs []) = Raise e ->
     _try_get w hs cid suffix = Raise e) /\
  (forall r1 r2,
     http_get w (mkRequest url1 hs []) = Ok r1 -> status_code r1 <> 200 ->
     http_get w (mkRequest url2 hs []) = Ok r2 -> status_code r2 = 200 ->
     _try_get w hs cid suffix
     = (data <- json_body r2 ;; Ok (200, data, py "OK: " ++ url2))) /\
  (forall r1 e,
     http_get w (mkRequest url1 hs []) = Ok r1 -> status_code r1 <> 200 ->
     http_get w (mkRequest url2 hs []) = Raise e ->
     _try_get w hs cid suffix = Raise e) /\
  (forall r1 r2,
     http_get w (mkRequest url1 hs []) = Ok r1 -> status_code r1 <> 200 ->
     http_get w (mkRequest url2 hs []) = Ok r2 -> status_code r2 <> 200 ->
     exists attempts,
       _try_get w hs cid suffix = Ok (status_code r2, JNull, attempts)).
Proof.
  cbv zeta. unfold _try_get, path_prefixes, lookup_url. cbn [try_prefixes].
  repeat split.
  - intros r1 -> H. cbn [bind]. rewrite H. reflexivity.
  - intros e ->. reflexivity.
  - intros r1 r2 -> H1 -> H2. cbn [bind].
    apply Z.eqb_neq in H1. rewrite H1, H2. reflexivity.
  - intros r1 e -> H1 ->. cbn [bind].
    apply Z.eqb_neq in H1. rewrite H1. reflexivity.
  - intros r1 r2 -> H1 -> H2. cbn [bind].
    apply Z.eqb_neq in H1, H2. rewrite H1, H2. eexists. reflexivity.
Qed.

Lemma try_get_fallback_order_witness :
  _try_get (world_with timeout_upstream) (headers_for (py "secret")) (py "c1")
    (py "key-points")
  = Raise (mkExn KTimeoutException (py "ConnectTimeout") (py "timed out")).
Proof.
  apply (proj1 (proj2 (try_get_fallback_order (world_with timeout_upstream)
                         (headers_for (py "secret")) (py "c1") (py "key-points")))).
  reflexivity.
Defined.

Lemma try_get_all_raise (w : world) hs cid suffix :
  (forall req, exists e, http_get w req = Raise e) ->
  exists e, _try_get w hs cid suffix = Raise e.
Proof.
  intros H. unfold _try_get, path_prefixes. cbn [try_prefixes].
  destruct (H (mkRequest (API_BASE_URL ++ py "/" ++ (py "activity/" ++ cid)
                            ++ py "/" ++ suffix) hs [])) as [e ->].
  eexists. reflexivity.
Qed.

Lemma try_get_all_other_status (w : world) hs cid suffix :
  (forall req, exists r, http_get w req = Ok r /\ status_code r <> 200) ->
  exists status attempts,
    _try_get w hs cid suffix = Ok (status, JNull, attempts) .
Proof.
  intros H. unfold _try_get, path_prefixes. cbn [try_prefixes].
  destruct (H (mkRequest (API_BASE_URL ++ py "/" ++ (py "activity/" ++ cid)
                            ++ py "/" ++ suffix) hs [])) as (r1 & -> & H1).
  destruct (H (mkRequest (API_BASE_URL ++ py "/" ++ (py "conference/" ++ cid)
                            ++ py "/" ++ suffix) hs [])) as (r2 & -> & H2).
  cbn [bind]. apply Z.eqb_neq in H1, H2. rewrite H1, H2.
  do 2 eexists. reflexivity.
Qed.

(** X5. With the token set, a summary request during which every call to
    the upstream raises returns one fixed report, and a request during
    which every call is answered with a status other than 200 returns
    another: both list the three headers, each over its placeholder, and
    they differ in the Key Points placeholder only. *)
Theorem summary_report_when_nothing_is_available
    (w : world) (cid : pystr) (hs : list (pystr * pystr)) :
  _auth_headers w = Ok hs ->
  ((forall req, exists e, http_get w req = Raise e) ->
     jiminny_get_summary w cid = Ok all_failed_report) /\
  ((forall req, exists r, http_get w req = Ok r /\ status_code r <> 200) ->
     jiminny_get_summary w cid = Ok all_unavailable_report).
Proof.
  intros Hhs. split; intros H.
  - unfold jiminny_get_summary, summary_section, action_items_section,
      key_points_section. rewrite Hhs. cbn [bind].
    destruct (try_get_all_raise w hs cid (py "transcription-summary") H) as [e1 ->].
    destruct (try_get_all_raise w hs cid (py "action-items") H) as [e2 ->].
    destruct (try_get_all_raise w hs cid (py "key-points") H) as [e3 ->].
    vm_compute. reflexivity.
  - unfold jiminny_get_summary, summary_section, action_items_section,
      key_points_section. rewrite Hhs. cbn [bind].
    destruct (try_get_all_other_status w hs cid (py "transcription-summary") H)
      as (s1 & a1 & ->).
    destruct (try_get_all_other_status w hs cid (py "action-items") H)
      as (s2 & a2 & ->).
    destruct (try_get_all_other_status w hs cid (py "key-points") H)
      as (s3 & a3 & ->).
    cbn [truthy]. rewrite !andb_false_r.
    vm_compute. reflexivity.
Qed.

Lemma summary_report_when_nothing_is_available_witness :
  jiminny_get_summary (world_with timeout_upstream) (py "c1") = Ok all_failed_report /\
  jiminny_get_summary (world_with (status_upstream 500)) (py "c1")
  = Ok all_unavailable_report.
Proof.
  split.
  - apply (proj1 (summary_report_when_nothing_is_available
                    (world_with timeout_upstream) (py "c1")
                    (headers_for (py "secret")) eq_refl)).
    intros req. eexists. reflexivity.
  - apply (proj2 (summary_report_when_nothing_is_available
                    (world_with (status_upstream 500)) (py "c1")
                    (headers_for (py "secret")) eq_refl)).
    intros req. eexists. split; [reflexivity|discriminate].
Defined.

Lemma join_cons (sep p : pystr) (rest : list pystr) :
  rest <> [] -> join sep (p :: rest) = p ++ sep ++ join sep rest.
Proof. destruct rest; [contradiction|reflexivity]. Qed.

Lemma startswith_join3 (sep a b c : pystr) (rest : list pystr) :
  rest <> [] ->
  startswith (join sep (a :: b :: c :: rest)) (a ++ sep ++ b ++ sep ++ c ++ sep) = true.
Proof.
  intros H. rewrite !join_cons by (assumption || discriminate).
  replace (a ++ sep ++ b ++ sep ++ c ++ sep ++ join sep rest)
    with ((a ++ sep ++ b ++ sep ++ c ++ sep) ++ join sep rest)
    by (now rewrite <- !app_assoc).
  apply startswith_app.
Qed.

(** X6. With the token set, [jiminny_get_summary] always returns a text,
    of at most 25,053 characters, that opens with the title, a blank line
    and the Summary header, whatever the upstream does. *)
Theorem summary_report_opening_and_size
    (w : world) (cid : pystr) (hs : list (pystr * pystr)) :
  _auth_headers w = Ok hs ->
  exists report,
    jiminny_get_summary w cid = Ok report /\
    startswith report
      (py "# Conversation Summary" ++ nl ++ nl ++ py "## Summary" ++ nl) = true /\
    len report <= 25053.
Proof.
  intros Hhs. unfold jiminny_get_summary. rewrite Hhs. cbn [bind].
  eexists. split; [reflexivity|]. split.
  - apply startswith_truncate; [|vm_compute; discriminate].
    cbn [app].
    apply (startswith_join3 nl (py "# Conversation Summary") [] (py "## Summary")).
    destruct (summary_section w hs cid); discriminate.
  - pose proof (len_truncate
      (join nl ((([py "# Conversation Summary"; []] ++
                  [py "## Summary"] ++ summary_section w hs cid ++ [[]]) ++
                 [py "## Action Items"] ++ action_items_section w hs cid ++ [[]]) ++
                [py "## Key Points"] ++ key_points_section w hs cid))) as H.
    change (len truncation_suffix) with 53 in H. unfold CHARACTER_LIMIT in H.
    exact H.
Qed.

Lemma summary_report_opening_and_size_witness :
  exists report,
    jiminny_get_summary (sample_world short_summary_body) (py "c1") = Ok report /\
    startswith report
      (py "# Conversation Summary" ++ nl ++ nl ++ py "## Summary" ++ nl) = true /\
    len report <= 25053.
Proof.
  apply (summary_report_opening_and_size (sample_world short_summary_body) (py "c1")
           sample_headers).
  reflexivity.
Defined.

(** ** The extractors *)

Lemma json_nested_ind (P : json -> Prop) :
  P JNull -> (forall b, P (JBool b)) -> (forall z, P (JInt z)) ->
  (forall m e, P (JFloat m e)) -> (forall s, P (JStr s)) ->
  (forall items, Forall P items -> P (JList items)) ->
  (forall kvs, Forall (fun kv => P (snd kv)) kvs -> P (JDict kvs)) ->
  forall v, P v.
Proof.
  intros Hn Hb Hz Hf Hs Hl Hd. fix IH 1.
  intros [|b|z|m e|s|items|kvs];
    [exact Hn|apply Hb|apply Hz|apply Hf|apply Hs| |].
  - apply Hl. revert items. fix IHl 1.
    intros [|x xs]; constructor; [apply IH|apply IHl].
  - apply Hd. revert kvs. fix IHd 1.
    intros [|[k v] rest]; constructor; [apply IH|apply IHd].
Qed.

Lemma extract_text_dict_eq (d : list (pystr * json)) (fallback_key : pystr) :
  _extract_text (JDict d) fallback_key
  = match first_key (text_at d) (standard_text_keys ++ [fallback_key]) with
    | Some t => t
    | None =>
        match find_map (fun v => _extract_text v fallback_key) d (py "data") with
        | Some t => t
        | None =>
            match find_map (fun v => _extract_text v fallback_key) d (py "results") with
            | Some t => t
            | None => []
            end
        end
    end.
Proof. reflexivity. Qed.

Lemma extract_text_list_eq (items : list json) (fallback_key : pystr) :
  _extract_text (JList items) fallback_key
  = match filter nonempty (map (fun item => _extract_text item fallback_key) items) with
    | [] => []
    | t :: rest => join nl (t :: rest)
    end.
Proof.
  transitivity
    (let texts :=
       filter nonempty (map (fun item => _extract_text item fallback_key) items) in
     match texts with
     | [] => []
     | _ :: _ => join nl texts
     end); [reflexivity|].
  cbv zeta. now destruct (filter nonempty _).
Qed.

Lemma first_key_app {A} (probe : pystr -> option A) (keys more : list pystr) :
  first_key probe (keys ++ more)
  = match first_key probe keys with
    | Some a => Some a
    | None => first_key probe more
    end.
Proof.
  induction keys as [|k keys IH]; [reflexivity|].
  cbn [app first_key]. destruct (probe k); [reflexivity|exact IH].
Qed.

Lemma first_key_none_in {A} (probe : pystr -> option A) (keys : list pystr) (k : pystr) :
  first_key probe keys = None -> In k keys -> probe k = None.
Proof.
  induction keys as [|k' keys IH]; [contradiction|].
  cbn [first_key]. destruct (probe k') eqn:E; [discriminate|].
  intros H [->|Hin]; [assumption|now apply IH].
Qed.

Lemma first_key_repeated {A} (probe : pystr -> option A) (keys : list pystr) (k : pystr) :
  In k keys -> first_key probe (keys ++ [k]) = first_key probe keys.
Proof.
  intros Hin. rewrite first_key_app.
  destruct (first_key probe keys) eqn:E; [reflexivity|].
  cbn [first_key]. now rewrite (first_key_none_in probe keys k E Hin).
Qed.

Lemma find_map_ext {A} (f g : json -> A) (d : list (pystr * json)) (key : pystr) :
  Forall (fun kv => f (snd kv) = g (snd kv)) d ->
  find_map f d key = find_map g d key.
Proof.
  induction 1 as [|[k v] d Hv _ IH]; [reflexivity|].
  cbn [find_map]. destruct (str_eqb k key); [|exact IH].
  cbn [snd] in Hv. now rewrite Hv.
Qed.

(** X7. The fallback key of [_extract_text] changes nothing when it is one
    of the five keys tried before it.  The handler passes [summary] and
    the list extractor leaves the default [text], both among the five:
    on every document the two calls return the same text. *)
Theorem extract_text_fallback_among_standard_keys
    (data : json) (fallback_key : pystr) :
  In fallback_key standard_text_keys ->
  _extract_text data fallback_key = _extract_text data (py "text").
Proof.
  intros Hin. induction data as [|b|z|m e|s|items IH|kvs IH] using json_nested_ind;
    try reflexivity.
  - rewrite !extract_text_list_eq.
    assert (Hmap : map (fun item => _extract_text item fallback_key) items
                   = map (fun item => _extract_text item (py "text")) items).
    { induction IH as [|x xs Hx _ IHxs]; [reflexivity|].
      cbn [map]. now rewrite Hx, IHxs. }
    now rewrite Hmap.
  - rewrite !extract_text_dict_eq.
    rewrite (first_key_repeated _ _ _ Hin).
    rewrite (first_key_repeated (text_at kvs) standard_text_keys (py "text"))
      by now left.
    rewrite (find_map_ext _ (fun v => _extract_text v (py "text")) kvs (py "data") IH).
    rewrite (find_map_ext _ (fun v => _extract_text v (py "text")) kvs (py "results") IH).
    reflexivity.
Qed.

Lemma extract_text_fallback_among_standard_keys_witness :
  _extract_text short_summary_body (py "summary")
  = _extract_text short_summary_body (py "text").
Proof.
  apply extract_text_fallback_among_standard_keys. right. now left.
Defined.

Lemma filter_nonempty_all (l : list pystr) :
  Forall (fun t => t <> []) (filter nonempty l).
Proof.
  induction l as [|t l IH]; [constructor|].
  cbn [filter]. destruct t; cbn [nonempty]; [exact IH|].
  constructor; [discriminate|exact IH].
Qed.

Lemma filter_nonempty_nil {A} (f : A -> pystr) (l : list A) :
  filter nonempty (map f l) = [] <-> Forall (fun x => f x = []) l.
Proof.
  induction l as [|x l IH]; [split; constructor|].
  cbn [map filter]. destruct (f x) eqn:E; cbn [nonempty].
  - rewrite IH. split; intros H; [now constructor|now inversion H].
  - split; [discriminate|]. intros H. inversion H. congruence.
Qed.

(** X8. On a list, [_extract_text] returns the texts of the items that
    yield a non-empty text, joined by single newlines: the items that
    yield nothing add no blank line, and dropping them from the list
    changes nothing.  The result is the empty text exactly when every
    item of the list yields the empty text. *)
Theorem extract_text_of_list_is_empty_iff
    (items : list json) (fallback_key : pystr) :
  (_extract_text (JList items) fallback_key = [] <->
   Forall (fun item => _extract_text item fallback_key = []) items) /\
  _extract_text (JList items) fallback_key
  = join nl (filter nonempty
               (map (fun item => _extract_text item fallback_key) items)) /\
  _extract_text (JList items) fallback_key
  = _extract_text
      (JList (filter (fun item => nonempty (_extract_text item fallback_key)) items))
      fallback_key.
Proof.
  assert (Hjoin : forall l,
             _extract_text (JList l) fallback_key
             = join nl (filter nonempty
                          (map (fun item => _extract_text item fallback_key) l))).
  { intros l. rewrite extract_text_list_eq. now destruct (filter nonempty _). }
  split; [|split; [apply Hjoin|]].
  - rewrite extract_text_list_eq, <- filter_nonempty_nil.
    pose proof (filter_nonempty_all
                  (map (fun item => _extract_text item fallback_key) items)) as Hall.
    destruct (filter nonempty _) as [|t rest]; [tauto|].
    split; [|discriminate]. intros H.
    inversion Hall as [|? ? Ht _]; subst.
    destruct t as [|c t]; [contradiction|].
    destruct rest; discriminate H.
  - rewrite !Hjoin. f_equal.
    induction items as [|item items IH]; [reflexivity|].
    cbn [map filter].
    destruct (nonempty (_extract_text item fallback_key)) eqn:E;
      cbn [map filter]; rewrite ?E; now rewrite IH.
Qed.

(** X9. From a list, [_extract_list_items] returns no empty item and at
    most one item per element: strings are trimmed and dropped when
    blank, objects contribute their extracted text when there is one,
    and every other element (numbers, [null], nested lists) is dropped. *)
Theorem extract_list_items_of_list (items : list json) :
  Forall (fun t => t <> []) (_extract_list_items (JList items)) /\
  (List.length (_extract_list_items (JList items)) <= List.length items)%nat /\
  (Forall (fun item => is_str item = false /\ is_dict item = false) items ->
   _extract_list_items (JList items) = []).
Proof.
  change (_extract_list_items (JList items)) with (extract_from_list items).
  repeat split.
  - induction items as [|item items IH]; [constructor|].
    destruct item as [| | | |s| |d]; cbn [extract_from_list]; try exact IH.
    + destruct (strip s) eqn:E; [exact IH|]. constructor; [discriminate|exact IH].
    + destruct (_extract_text (JDict d) (py "text")) eqn:E; [exact IH|].
      constructor; [discriminate|exact IH].
  - induction items as [|item items IH]; [cbn; lia|].
    destruct item as [| | | |s| |d]; cbn [extract_from_list List.length];
      try lia.
    + destruct (strip s); cbn [List.length]; lia.
    + destruct (_extract_text (JDict d) (py "text")); cbn [List.length]; lia.
  - induction 1 as [|item items [Hs Hd] _ IH]; [reflexivity|].
    destruct item; cbn [extract_from_list]; try exact IH; discriminate.
Qed.

Lemma extract_list_items_of_list_witness :
  _extract_list_items (JList [JInt 3; JNull; JList [JStr (py "nested")]]) = [].
Proof.
  apply (proj2 (proj2 (extract_list_items_of_list
                         [JInt 3; JNull; JList [JStr (py "nested")]]))).
  repeat constructor.
Defined.

Lemma lstrip_by_head (drop : N -> bool) (s : pystr) (c : N) (rest : pystr) :
  lstrip_by drop s = c :: rest -> drop c = false.
Proof.
  induction s as [|d s IH]; cbn [lstrip_by]; [discriminate|].
  destruct (drop d) eqn:E; [exact IH|]. intros [= <- _]. exact E.
Qed.

(** X10. When [_extract_list_items] falls back to splitting a text, it
    returns one item for each line that is not blank, and no item begins
    with a space or an asterisk. *)
Theorem bullet_lines_items (text : pystr) :
  List.length (bullet_lines text)
  = List.length (filter (fun line => nonempty (strip line)) (split_lines text)) /\
  Forall (fun item => forall c rest, item = c :: rest -> c <> 32%N /\ c <> 42%N)
         (bullet_lines text).
Proof.
  unfold bullet_lines. split; [apply length_map|].
  apply Forall_map, Forall_forall. intros line _ c rest H.
  apply lstrip_by_head in H. cbn [existsb] in H.
  apply orb_false_elim in H as [H42 H]. apply orb_false_elim in H as [H32 _].
  apply N.eqb_neq in H42, H32. auto.
Qed.

(** ** [_get_participant_names] *)

Lemma collect_names_cons (p : list (pystr * json)) (rest : list json)
    (mapping : kdict json) :
  collect_names (JDict p :: rest) mapping
  = if truthy (participant_id p) && truthy (participant_name p)
    then match py_hash (participant_id p) with
         | Ok k => collect_names rest (kdict_set mapping k (participant_name p))
         | Raise _ => mapping
         end
    else collect_names rest mapping.
Proof. reflexivity. Qed.

Lemma kdict_set_in {V} (d : kdict V) (k k' : hkey) (v v' : V) :
  In (k', v') (kdict_set d k v) -> In (k', v') d \/ (k' = k /\ v' = v).
Proof.
  induction d as [|[k0 v0] d IH]; cbn [kdict_set].
  - intros [[= <- <-]|[]]. now right.
  - destruct (hkey_eqb k0 k) eqn:E.
    + apply hkey_eqb_eq in E. subst k0.
      intros [[= <- <-]|Hin]; [now right|left; now right].
    + intros [Heq|Hin]; [left; now left|].
      destruct (IH Hin) as [H|H]; [left; now right|now right].
Qed.

Lemma kdict_find_set_same {V} (d : kdict V) (k : hkey) (v : V) :
  kdict_find (kdict_set d k v) k = Some v.
Proof.
  induction d as [|[k0 v0] d IH]; cbn [kdict_set kdict_find].
  - unfold hkey_eqb. destruct (hkey_eq_dec k k); [reflexivity|contradiction].
  - destruct (hkey_eqb k0 k) eqn:E; cbn [kdict_find]; rewrite E; [reflexivity|exact IH].
Qed.

Lemma collect_names_sound (participants : list json) :
  forall (mapping : kdict json) (k : hkey) (v : json),
    In (k, v) (collect_names participants mapping) ->
    In (k, v) mapping \/
    exists p, In (JDict p) participants /\
              truthy (participant_id p) = true /\
              py_hash (participant_id p) = Ok k /\
              v = participant_name p /\ truthy v = true.
Proof.
  induction participants as [|q rest IH]; intros mapping k v Hin; [now left|].
  destruct q as [| | | | | |p];
    try (cbn [collect_names] in Hin; destruct (IH _ _ _ Hin) as [H|(p & H & H')];
         [now left|right; exists p; split; [now right|exact H']]).
  rewrite collect_names_cons in Hin.
  destruct (truthy (participant_id p)) eqn:Tp; cbn [andb] in Hin.
  2:{ destruct (IH _ _ _ Hin) as [H|(p' & H & H')];
        [now left|right; exists p'; split; [now right|exact H']]. }
  destruct (truthy (participant_name p)) eqn:Tn.
  2:{ destruct (IH _ _ _ Hin) as [H|(p' & H & H')];
        [now left|right; exists p'; split; [now right|exact H']]. }
  destruct (py_hash (participant_id p)) as [kp|] eqn:Hp; [|now left].
  destruct (IH _ _ _ Hin) as [H|(p' & H & H')].
  - apply kdict_set_in in H as [H|[-> ->]]; [now left|].
    right. exists p. repeat split; auto. now left.
  - right. exists p'. split; [now right|exact H'].
Qed.

(** X11. Every entry of the mapping [_get_participant_names] returns comes
    from the participants endpoint: the call succeeded, the payload is a
    list or has one under [participants], else [data], else [results],
    and the entry is the id (as a key) and the truthy name of an object
    of that list.  Nothing is stored when the call fails or the payload
    has another shape. *)
Theorem participant_names_come_from_the_endpoint
    (w : world) (cid : pystr) (k : hkey) (v : json) :
  In (k, v) (_get_participant_names w cid) ->
  exists data participants p,
    _api_get w (py "activity/" ++ cid ++ py "/participants") [] = Ok data /\
    (data = JList participants \/
     exists d, data = JDict d /\
               get_or d (py "participants")
                 (get_or d (py "data") (get_or d (py "results") (JList [])))
               = JList participants) /\
    In (JDict p) participants /\
    truthy (participant_id p) = true /\
    py_hash (participant_id p) = Ok k /\
    v = participant_name p /\ truthy v = true.
Proof.
  unfold _get_participant_names.
  destruct (_api_get w _ []) as [data|]; [|contradiction].
  destruct data as [| | | | |ps|d]; cbn [dot_get bind]; try contradiction.
  - intros Hin. destruct (collect_names_sound ps [] k v Hin) as [[]|(p & H & H')].
    exists (JList ps), ps, p. repeat split; try apply H'; auto.
  - destruct (get_or d (py "participants") _) as [| | | | |ps|] eqn:E;
      try contradiction.
    intros Hin. destruct (collect_names_sound ps [] k v Hin) as [[]|(p & H & H')].
    exists (JDict d), ps, p. repeat split; try apply H'; eauto.
Qed.

Lemma collect_names_app (participants more : list json) :
  Forall (fun q => forall p, q = JDict p ->
            truthy (participant_id p) && truthy (participant_name p) = true ->
            exists k, py_hash (participant_id p) = Ok k) participants ->
  forall mapping,
    collect_names (participants ++ more) mapping
    = collect_names more (collect_names participants mapping).
Proof.
  induction 1 as [|q rest Hq _ IH]; intros mapping; [reflexivity|].
  destruct q as [| | | | | |p]; try (cbn [app collect_names]; apply IH).
  cbn [app]. rewrite !collect_names_cons.
  destruct (truthy (participant_id p) && truthy (participant_name p)) eqn:E;
    [|apply IH].
  destruct (Hq p eq_refl E) as [k ->]. apply IH.
Qed.

(** X12. When no participant with a truthy id and name has an unhashable
    id (which would end the loop early), a later participant overrides an
    earlier one with the same id: after the loop, the id of the last
    participant maps to the name of the last participant. *)
Theorem last_participant_wins
    (participants : list json) (p : list (pystr * json)) (k : hkey) :
  Forall (fun q => forall p, q = JDict p ->
            truthy (participant_id p) && truthy (participant_name p) = true ->
            exists k, py_hash (participant_id p) = Ok k) participants ->
  truthy (participant_id p) = true ->
  truthy (participant_name p) = true ->
  py_hash (participant_id p) = Ok k ->
  kdict_find (collect_names (participants ++ [JDict p]) []) k
  = Some (participant_name p).
Proof.
  intros Hok Tp Tn Hk. rewrite (collect_names_app _ _ Hok).
  rewrite collect_names_cons, Tp, Tn, Hk. cbn [andb collect_names].
  apply kdict_find_set_same.
Qed.

Lemma participant_names_come_from_the_endpoint_witness :
  exists data,
    _api_get (world_with (participants_upstream (JList sample_participants)))
      (py "activity/" ++ py "c1" ++ py "/participants") [] = Ok data.
Proof.
  destruct (participant_names_come_from_the_endpoint
              (world_with (participants_upstream (JList sample_participants)))
              (py "c1") (HStr (py "B")) (JStr (py "bob@example.com")))
    as (data & _ & _ & H & _).
  - vm_compute. right. left. reflexivity.
  - exists data. exact H.
Defined.

Lemma last_participant_wins_witness :
  kdict_find (collect_names sample_participants []) (HStr (py "A"))
  = Some (JStr (py "Anna")).
Proof.
  apply (last_participant_wins
           [JDict [(py "id", JStr (py "A")); (py "name", JStr (py "Ann"))];
            JDict [(py "id", JStr (py "B")); (py "email", JStr (py "bob@example.com"))]]
           [(py "participantId", JStr (py "A")); (py "displayName", JStr (py "Anna"))]
           (HStr (py "A"))); try reflexivity.
  repeat constructor; intros p [= <-] _; eexists; reflexivity.
Defined.

(* ------------------------------------------------------------------ *)
(** ** Handlers, for every Python runtime *)
(* ------------------------------------------------------------------ *)

Section HandlerProperties.

Variable py_repr : json -> pystr.
Variable float_of_str : pystr -> option pyfloat.

Lemma api_get_status_error (w : world) (token path : pystr) params (r : response) :
  JIMINNY_TOKEN w = Some token -> token <> [] ->
  http_get w (mkRequest (API_BASE_URL ++ py "/" ++ path) (headers_for token) params)
  = Ok r ->
  ~ (200 <= status_code r <= 299) ->
  _api_get w path params
  = Raise (mkExn (KHTTPStatusError (status_code r)) (py "HTTPStatusError")
             (status_message r)).
Proof.
  intros Ht Hne Hr Hs. unfold _api_get.
  rewrite (proj2 (auth_headers_ok w (headers_for token))) by eauto.
  cbn [bind]. rewrite Hr. cbn [bind]. unfold raise_for_status.
  destruct (Z.leb_spec 200 (status_code r)); [|reflexivity].
  destruct (Z.leb_spec (status_code r) 299); [lia|reflexivity].
Qed.

Lemma api_get_transport_error (w : world) (token path : pystr) params (e : exn) :
  JIMINNY_TOKEN w = Some token -> token <> [] ->
  http_get w (mkRequest (API_BASE_URL ++ py "/" ++ path) (headers_for token) params)
  = Raise e ->
  _api_get w path params = Raise e.
Proof.
  intros Ht Hne Hr. unfold _api_get.
  rewrite (proj2 (auth_headers_ok w (headers_for token))) by eauto.
  cbn [bind]. now rewrite Hr.
Qed.

Lemma api_get_decode_error (w : world) (token path : pystr) params
    (r : response) (e : exn) :
  JIMINNY_TOKEN w = Some token -> token <> [] ->
  http_get w (mkRequest (API_BASE_URL ++ py "/" ++ path) (headers_for token) params)
  = Ok r ->
  200 <= status_code r <= 299 -> json_body r = Raise e ->
  _api_get w path params = Raise e.
Proof.
  intros Ht Hne Hr Hs Hb. unfold _api_get.
  rewrite (proj2 (auth_headers_ok w (headers_for token))) by eauto.
  cbn [bind]. rewrite Hr. cbn [bind]. unfold raise_for_status.
  destruct (Z.leb_spec 200 (status_code r)); [|lia].
  destruct (Z.leb_spec (status_code r) 299); [|lia].
  exact Hb.
Qed.

(** X13. With the token set, when the upstream answers the request of
    [jiminny_list_conversations], or the transcription request of
    [jiminny_get_transcript], with a status outside 200..299, the handler
    returns the message [_handle_error] has for that status: the fixed
    text for 401, 403, 404 and 429, the generic one otherwise. *)
Theorem upstream_status_is_reported
    (w : world) (token cid : pystr) (page : Z) (r : response) :
  JIMINNY_TOKEN w = Some token -> token <> [] ->
  ~ (200 <= status_code r <= 299) ->
  let message := _handle_error (mkExn (KHTTPStatusError (status_code r))
                                  (py "HTTPStatusError") (status_message r)) in
  (http_get w (mkRequest (API_BASE_URL ++ py "/" ++ py "page/on-demand")
                 (headers_for token) [(py "page", JInt page)]) = Ok r ->
   jiminny_list_conversations py_repr w page = Ok message) /\
  (http_get w (mkRequest (API_BASE_URL ++ py "/"
                            ++ (py "activity/" ++ cid ++ py "/transcription"))
                 (headers_for token) []) = Ok r ->
   jiminny_get_transcript py_repr float_of_str w cid = Ok message).
Proof.
  intros Ht Hne Hs. cbv zeta. split; intros Hr.
  - unfold jiminny_list_conversations.
    now rewrite (api_get_status_error w token _ _ r Ht Hne Hr Hs).
  - unfold jiminny_get_transcript, transcript_body.
    now rewrite (api_get_status_error w token _ _ r Ht Hne Hr Hs).
Qed.

(** X14. With the token set, an exception raised while the request is
    sent (a timeout, a connection failure) or while a 2xx body is decoded
    (a body that is not JSON) is returned by [jiminny_list_conversations]
    and by [jiminny_get_transcript] as the message of [_handle_error] for
    that exception. *)
Theorem upstream_exception_is_reported
    (w : world) (token cid : pystr) (page : Z) (e : exn) :
  JIMINNY_TOKEN w = Some token -> token <> [] ->
  let list_request :=
    mkRequest (API_BASE_URL ++ py "/" ++ py "page/on-demand")
      (headers_for token) [(py "page", JInt page)] in
  let transcript_request :=
    mkRequest (API_BASE_URL ++ py "/" ++ (py "activity/" ++ cid ++ py "/transcription"))
      (headers_for token) [] in
  (http_get w list_request = Raise e \/
   (exists r, http_get w list_request = Ok r /\
              200 <= status_code r <= 299 /\ json_body r = Raise e) ->
   jiminny_list_conversations py_repr w page = Ok (_handle_error e)) /\
  (http_get w transcript_request = Raise e \/
   (exists r, http_get w transcript_request = Ok r /\
              200 <= status_code r <= 299 /\ json_body r = Raise e) ->
   jiminny_get_transcript py_repr float_of_str w cid = Ok (_handle_error e)).
Proof.
  intros Ht Hne. cbv zeta. split; intros [Hr|(r & Hr & Hs & Hb)].
  - unfold jiminny_list_conversations.
    now rewrite (api_get_transport_error w token _ _ e Ht Hne Hr).
  - unfold jiminny_list_conversations.
    now rewrite (api_get_decode_error w token _ _ r e Ht Hne Hr Hs Hb).
  - unfold jiminny_get_transcript, transcript_body.
    now rewrite (api_get_transport_error w token _ _ e Ht Hne Hr).
  - unfold jiminny_get_transcript, transcript_body.
    now rewrite (api_get_decode_error w token _ _ r e Ht Hne Hr Hs Hb).
Qed.

(** *** Skipped and malformed segments *)

Lemma loop_body_skipped (names : kdict json) (st : loop_state) (seg : json) :
  is_skipped seg = true -> loop_body py_repr float_of_str names st seg = Ok st.
Proof.
  destruct seg as [| | | | | |d]; try reflexivity.
  cbn [is_skipped loop_body].
  destruct (segment_text d) as [| | | |t| |]; try discriminate.
  cbn [dot_strip bind]. destruct (strip t); [reflexivity|discriminate].
Qed.

Lemma segment_loop_skips (names : kdict json) (segments : list json) :
  forall st,
    segment_loop py_repr float_of_str names st segments
    = segment_loop py_repr float_of_str names st
        (filter (fun seg => negb (is_skipped seg)) segments).
Proof.
  induction segments as [|seg rest IH]; intros st; [reflexivity|].
  cbn [filter]. destruct (is_skipped seg) eqn:E; cbn [negb segment_loop].
  - rewrite (loop_body_skipped names st seg E). cbn [bind]. apply IH.
  - destruct (loop_body py_repr float_of_str names st seg); [|reflexivity].
    cbn [bind]. apply IH.
Qed.

(** X15. Segments that are not objects and segments whose text is a blank
    string leave no trace: the rendering of a segment list is the
    rendering of the list without them.  When a list holds nothing else
    and no name is known, the rendering is the title line alone. *)
Theorem skipped_segments_leave_no_trace
    (names : kdict json) (segments : list json) :
  render_segments py_repr float_of_str names segments
  = render_segments py_repr float_of_str names
      (filter (fun seg => negb (is_skipped seg)) segments) /\
  (Forall (fun seg => is_skipped seg = true) segments ->
   render_segments py_repr float_of_str [] segments = Ok (transcript_title ++ nl)).
Proof.
  split.
  - unfold render_segments. now rewrite segment_loop_skips.
  - intros H. unfold render_segments. rewrite segment_loop_skips.
    assert (Hnil : filter (fun seg => negb (is_skipped seg)) segments = []).
    { induction H as [|seg rest Hs _ IH]; [reflexivity|].
      cbn [filter]. now rewrite Hs. }
    rewrite Hnil. vm_compute. reflexivity.
Qed.

(** X16. One segment object whose text is not a string (a number, a list)
    is enough for the rendering to raise: no transcript is produced,
    whatever the other segments are, and the handler returns the text of
    the error instead. *)
Theorem non_string_text_fails_the_transcript
    (names : kdict json) (segments : list json) (d : list (pystr * json)) :
  In (JDict d) segments -> is_str (segment_text d) = false ->
  (exists e, render_segments py_repr float_of_str names segments = Raise e) /\
  (forall w cid,
     _api_get w (py "activity/" ++ cid ++ py "/transcription") [] = Ok (JList segments) ->
     exists e, jiminny_get_transcript py_repr float_of_str w cid = Ok (_handle_error e)).
Proof.
  intros Hin Htext.
  assert (Hr : forall names, exists e,
             render_segments py_repr float_of_str names segments = Raise e);
    [clear names; intros names|
     split; [apply Hr|];
     intros w cid Hapi; unfold jiminny_get_transcript, transcript_body;
     rewrite Hapi; cbn [bind select_segments is_dict andb];
     destruct segments as [|seg rest]; [contradiction|];
     destruct (Hr (_get_participant_names w cid)) as [e ->];
     exists e; reflexivity].
  unfold render_segments.
  assert (H : forall st, exists e,
             segment_loop py_repr float_of_str names st segments = Raise e).
  { induction segments as [|seg rest IH]; [contradiction|]. intros st.
    cbn [segment_loop]. destruct Hin as [->|Hin].
    - unfold loop_body.
      destruct (segment_text d); try discriminate Htext; eexists; reflexivity.
    - destruct (loop_body py_repr float_of_str names st seg) as [st'|e];
        [|eexists; reflexivity].
      cbn [bind]. apply (IH Hin). }
  destruct (H loop_init) as [e ->]. eexists. reflexivity.
Qed.

(** *** The table of automatic labels *)

Lemma resolve_speaker_numbering (names : kdict json) (seen : list hkey)
    (pid speaker : json) (counter : Z) (labels : kdict pystr) :
  resolve_speaker names (len seen) (numbering 0 seen) pid
  = Ok (speaker, counter, labels) ->
  (counter = len seen /\ labels = numbering 0 seen) \/
  (exists k, ~ In k seen /\ kdict_find names k = None /\
             counter = len (seen ++ [k]) /\ labels = numbering 0 (seen ++ [k])).
Proof.
  unfold resolve_speaker. destruct (py_hash pid) as [k|]; [|discriminate].
  cbn [bind]. destruct (kdict_find names k) eqn:En.
  - intros [= _ <- <-]. now left.
  - destruct (existsb (hkey_eqb k) seen) eqn:Ein.
    + apply existsb_hkey in Ein. rewrite (find_numbering_in k seen 0 Ein).
      intros [= _ <- <-]. now left.
    + assert (Hout : ~ In k seen).
      { intros Hin. apply existsb_hkey in Hin. congruence. }
      rewrite (find_numbering_out k seen 0 Hout).
      intros [= _ <- <-]. right. exists k. repeat split; auto.
      * rewrite len_app. reflexivity.
      * now rewrite <- set_numbering.
Qed.

Lemma label_segments_numbering (names : kdict json) (segments : list json) :
  forall (seen : list hkey) us counter labels,
    NoDup seen -> (forall k, In k seen -> kdict_find names k = None) ->
    label_segments py_repr float_of_str names (len seen) (numbering 0 seen) segments
    = Ok (us, counter, labels) ->
    exists keys,
      NoDup keys /\ (forall k, In k keys -> kdict_find names k = None) /\
      counter = len keys /\ labels = numbering 0 keys.
Proof.
  induction segments as [|seg rest IH]; intros seen us counter labels Hnd Hnames H.
  - cbn in H. injection H as _ <- <-. exists seen. auto.
  - destruct seg as [| | | | | |d];
      try (cbn [label_segments] in H; apply (IH seen us counter labels Hnd Hnames H)).
    cbn [label_segments] in H.
    destruct (segment_text d) as [| | | |t| |]; try discriminate H.
    cbn [dot_strip bind] in H.
    destruct (strip t) as [|c stripped];
      [apply (IH seen us counter labels Hnd Hnames H)|].
    destruct (resolve_speaker names (len seen) (numbering 0 seen) (segment_pid d))
      as [[[speaker c1] l1]|] eqn:Er; [|discriminate H].
    cbn [bind] in H.
    destruct (segment_timestamp py_repr float_of_str (segment_start d));
      [|discriminate H].
    cbn [bind] in H.
    destruct (label_segments py_repr float_of_str names c1 l1 rest)
      as [[[more c2] l2]|] eqn:Erest; [|discriminate H].
    cbn [bind] in H. injection H as _ <- <-.
    destruct (resolve_speaker_numbering names seen _ _ _ _ Er)
      as [[-> ->]|(k & Hout & Hk & -> & ->)].
    + apply (IH seen more c2 l2 Hnd Hnames Erest).
    + apply (IH (seen ++ [k]) more c2 l2); [| |exact Erest].
      * apply NoDup_app; [assumption|repeat constructor; intros []|].
        intros x Hx [->|[]]. contradiction.
      * intros k' Hin. apply in_app_or in Hin as [Hin|[->|[]]]; auto.
Qed.

(** X17. Whatever the name map, a loop that completes leaves a table of
    automatic labels that numbers distinct ids [Speaker 1], [Speaker 2],
    ... without a gap, in the order of the table; the counter is the size
    of the table (the number printed in the speakers-detected note), and
    no id that has a name in the map is in it. *)
Theorem auto_label_table_is_a_numbering
    (names : kdict json) (segments : list json) (st : loop_state) :
  segment_loop py_repr float_of_str names loop_init segments = Ok st ->
  exists keys,
    NoDup keys /\
    (forall k, In k keys -> kdict_find names k = None) /\
    speaker_counter st = len keys /\
    auto_names st = numbering 0 keys.
Proof.
  intros Hloop. rewrite segment_loop_factor in Hloop.
  cbn [loop_init speaker_counter auto_names] in Hloop.
  destruct (label_segments py_repr float_of_str names 0 [] segments)
    as [[[us counter] labels]|] eqn:El; [|discriminate Hloop].
  cbn [bind] in Hloop. injection Hloop as <-. cbn [speaker_counter auto_names].
  apply (label_segments_numbering names segments [] us counter labels);
    [constructor|intros k []|exact El].
Qed.

(** *** What every transcript and every listing looks like *)

Lemma segment_loop_lines (names : kdict json) (segments : list json) (st : loop_state) :
  segment_loop py_repr float_of_str names loop_init segments = Ok st ->
  exists es, lines st = transcript_title :: [] :: es.
Proof.
  intros Hloop. rewrite segment_loop_factor in Hloop.
  destruct (label_segments _ _ _ _ _ _) as [[[us counter] labels]|];
    [|discriminate Hloop].
  cbn [bind] in Hloop. injection Hloop as <-. cbn [lines loop_init app].
  eexists. reflexivity.
Qed.

Lemma startswith_join2 (sep a b : pystr) (rest : list pystr) :
  startswith (join sep (a :: b :: rest)) (a ++ sep) = true.
Proof.
  rewrite join_cons by discriminate. rewrite app_assoc. apply startswith_app.
Qed.

Lemma len_truncate_25053 (text : pystr) : len (_truncate text) <= 25053.
Proof.
  pose proof (len_truncate text) as H.
  change (len truncation_suffix) with 53 in H. unfold CHARACTER_LIMIT in H. exact H.
Qed.

Lemma Ok_inj {A} (a b : A) : Ok a = Ok b -> a = b.
Proof. now intros [= ->]. Qed.

(** X18. Whenever the body of [jiminny_get_transcript] completes, on any
    of its three paths (direct text, raw dump, rendered segments), the
    text it returns opens with the line [# Transcript] and has at most
    25,053 characters. *)
Theorem transcript_opening_and_size (w : world) (cid text : pystr) :
  transcript_body py_repr float_of_str w cid = Ok text ->
  startswith text (transcript_title ++ nl) = true /\ len text <= 25053.
Proof.
  unfold transcript_body.
  destruct (_api_get w _ []) as [data|]; [|discriminate]. cbn [bind].
  assert (Hdump : forall body,
             startswith (_truncate (transcript_title ++ nl ++ nl ++ body))
                        (transcript_title ++ nl) = true).
  { intros body. apply startswith_truncate; [|vm_compute; discriminate].
    rewrite app_assoc. apply startswith_app. }
  destruct (if is_dict data && negb (truthy (select_segments data))
            then match data with JDict d => direct_text d | _ => None end
            else None) as [direct|].
  { intros Heq; apply Ok_inj in Heq; subst text. split; [apply Hdump|apply len_truncate_25053]. }
  destruct (select_segments data) as [| | | | |[|seg rest]|];
    try (intros Heq; apply Ok_inj in Heq; subst text; split; [apply Hdump|apply len_truncate_25053]).
  unfold render_segments.
  destruct (segment_loop py_repr float_of_str _ loop_init (seg :: rest))
    as [st|] eqn:Eloop; [|discriminate].
  cbn [bind]. destruct (segment_loop_lines _ _ _ Eloop) as [es Hlines].
  unfold add_participants. rewrite Hlines.
  destruct (_get_participant_names w cid) as [|entry names].
  - destruct (auto_names st); cbn [bind insert2 firstn skipn app];
      intros Heq; apply Ok_inj in Heq; subst text; (split; [|apply len_truncate_25053]);
      (apply startswith_truncate; [apply startswith_join2|vm_compute; discriminate]).
  - destruct (join_values 0 (map snd (entry :: names))); [|discriminate].
    cbn [bind insert2 firstn skipn app]. intros Heq; apply Ok_inj in Heq; subst text.
    split; [|apply len_truncate_25053].
    apply startswith_truncate; [apply startswith_join2|vm_compute; discriminate].
Qed.

(** X19. Whenever [_format_conversation_list] returns, its text opens with
    [# Jiminny Conversations (page ]; when there is at least one result
    the text has at most 25,053 characters.  (The text for an empty
    result list is not truncated.) *)
Theorem listing_opening_and_size (data : json) (text : pystr) :
  _format_conversation_list py_repr data = Ok text ->
  startswith text (py "# Jiminny Conversations (page ") = true /\
  (forall d, data = JDict d ->
     truthy (get_or d (py "results") (JList [])) = true -> len text <= 25053).
Proof.
  unfold _format_conversation_list.
  destruct data as [| | | | | |d]; try discriminate. cbn [dot_get bind].
  destruct (get_or d (py "pagination") (JDict [])) as [| | | | | |pg];
    try discriminate.
  destruct (py_len (get_or d (py "results") (JList []))) as [n|]; [|discriminate].
  cbn [bind].
  assert (Hopen : forall current total rest,
             startswith (join nl (list_header py_repr current total :: [] :: rest))
                        (py "# Jiminny Conversations (page ") = true).
  { intros current total rest. rewrite join_cons by discriminate.
    unfold list_header. rewrite <- !app_assoc. apply startswith_app. }
  destruct (truthy (get_or d (py "results") (JList []))) eqn:Et; cbn [negb].
  - destruct (py_iter _) as [rs|]; [|discriminate]. cbn [bind].
    destruct (all_conversation_lines py_repr rs) as [body|]; [|discriminate].
    cbn [bind app]. intros Heq; apply Ok_inj in Heq; subst text. split.
    + apply startswith_truncate; [|vm_compute; discriminate].
      destruct (truthy (get_or pg (py "next") JNull)); apply Hopen.
    + intros d' _ _. apply len_truncate_25053.
  - cbn [app]. intros Heq; apply Ok_inj in Heq; subst text. split; [apply Hopen|].
    intros d' [= <-] Ht. congruence.
Qed.

(** X20. An integer start offset [z] that is not zero and is below [2^53]
    in absolute value is stamped from [z] itself: the minutes are the
    floor of [z / 60], written in full (there is no hours field), and the
    seconds are the two digits of [z mod 60]. *)
Theorem integer_offset_timestamp (z : Z) :
  z <> 0 -> Z.abs z < 2 ^ 53 ->
  segment_timestamp py_repr float_of_str (JInt z)
  = Ok (str_of_int (z / 60) ++ py ":" ++ two_digits (z mod 60)).
Proof.
  intros Hz Habs. unfold segment_timestamp. cbn [truthy].
  apply Z.eqb_neq in Hz. rewrite Hz. cbn [negb py_float].
  unfold float_of_int. apply Z.ltb_lt in Habs. rewrite Habs. cbn [bind].
  unfold _format_seconds. cbn [int_of_float Z.leb Z.compare bind].
  replace (z * 2 ^ 0) with z by (rewrite Z.pow_0_r; lia).
  rewrite fmt_02d_two_digits by (apply Z.mod_pos_bound; lia).
  reflexivity.
Qed.

(** X21. A result list with an element that is not an object makes
    [_format_conversation_list] raise: no partial listing is returned. *)
Theorem listing_needs_object_records
    (d : list (pystr * json)) (results : list json) (r : json) :
  get_or d (py "results") (JList []) = JList results ->
  In r results -> is_dict r = false ->
  exists e, _format_conversation_list py_repr (JDict d) = Raise e.
Proof.
  intros Hres Hin Hr. unfold _format_conversation_list. cbn [dot_get bind].
  rewrite Hres.
  destruct (get_or d (py "pagination") (JDict [])) as [| | | | | |pg];
    try (eexists; reflexivity).
  cbn [py_len bind truthy].
  destruct results as [|r0 results]; [contradiction|]. cbn [negb py_iter bind].
  assert (H : exists e, all_conversation_lines py_repr (r0 :: results) = Raise e).
  { revert Hin. generalize (r0 :: results). intros rs.
    induction rs as [|x rs IH]; [contradiction|]. intros [->|Hin].
    - cbn [all_conversation_lines]. destruct r; try discriminate Hr;
        eexists; reflexivity.
    - cbn [all_conversation_lines].
      destruct (conversation_lines py_repr x); [|eexists; reflexivity].
      cbn [bind]. destruct (IH Hin) as [e ->]. eexists. reflexivity. }
  destruct H as [e ->]. eexists. reflexivity.
Qed.

End HandlerProperties.



(** X23. With [JIMINNY_TOKEN] unset or empty, [jiminny_list_conversations]
    and [jiminny_get_transcript] return the text of the configuration
    error as it is, without the [Error: ] prefix, whatever the upstream
    would answer. *)
Theorem missing_token_message_is_returned
    (py_repr : json -> pystr) (float_of_str : pystr -> option pyfloat)
    (upstream : request -> result response) (cid : pystr) (page : Z)
    (token : option pystr) :
  token = None \/ token = Some [] ->
  jiminny_list_conversations py_repr (mkWorld token upstream) page
  = Ok token_missing_message /\
  jiminny_get_transcript py_repr float_of_str (mkWorld token upstream) cid
  = Ok token_missing_message.
Proof. intros [->| ->]; split; reflexivity. Qed.

Lemma missing_token_message_is_returned_witness :
  jiminny_list_conversations sample_repr (mkWorld None timeout_upstream) 1
  = Ok token_missing_message.
Proof.
  apply (proj1 (missing_token_message_is_returned sample_repr sample_float_of_str
                  timeout_upstream (py "c1") 1 None (or_introl eq_refl))).
Defined.

(* ------------------------------------------------------------------ *)
(** ** Further sample evaluations *)
(* ------------------------------------------------------------------ *)

Lemma extract_text_of_list_is_empty_iff_witness :
  _extract_text (JList [JNull; JInt 1]) (py "text") = [].
Proof.
  apply (proj2 (proj1 (extract_text_of_list_is_empty_iff [JNull; JInt 1] (py "text")))).
  repeat constructor.
Defined.

Lemma upstream_status_is_reported_witness :
  jiminny_list_conversations sample_repr (world_with (status_upstream 429)) 1
  = Ok msg_429.
Proof.
  apply (proj1 (upstream_status_is_reported sample_repr sample_float_of_str
                  (world_with (status_upstream 429)) (py "secret") (py "c1") 1
                  (mkResponse 429 (py "status") (Ok (JDict [])))
                  eq_refl ltac:(discriminate) ltac:(cbn; lia))).
  reflexivity.
Defined.

Lemma upstream_exception_is_reported_witness :
  jiminny_get_transcript sample_repr sample_float_of_str
    (world_with malformed_upstream) (py "c1")
  = Ok (py "Error: JSONDecodeError: Expecting value").
Proof.
  apply (proj2 (upstream_exception_is_reported sample_repr sample_float_of_str
                  (world_with malformed_upstream) (py "secret") (py "c1") 1
                  (mkExn KOther (py "JSONDecodeError") (py "Expecting value"))
                  eq_refl ltac:(discriminate))).
  right. eexists. split; [reflexivity|]. split; [cbn; lia|reflexivity].
Defined.

Lemma skipped_segments_leave_no_trace_witness :
  render_segments sample_repr sample_float_of_str []
    [JNull; sample_segment "A" "   " (JInt 1); JStr (py "noise")]
  = Ok (transcript_title ++ nl).
Proof.
  apply (proj2 (skipped_segments_leave_no_trace sample_repr sample_float_of_str []
                  [JNull; sample_segment "A" "   " (JInt 1); JStr (py "noise")])).
  repeat constructor.
Defined.

Lemma non_string_text_fails_the_transcript_witness :
  exists e,
    render_segments sample_repr sample_float_of_str []
      (padded_segments ++ [numeric_text_segment]) = Raise e.
Proof.
  refine (proj1 (non_string_text_fails_the_transcript sample_repr sample_float_of_str
                   [] (padded_segments ++ [numeric_text_segment])
                   [(py "text", JInt 5)] _ _)).
  - apply in_or_app. right. now left.
  - reflexivity.
Defined.

Lemma auto_label_table_is_a_numbering_witness :
  exists keys,
    NoDup keys /\
    (forall k, In k keys -> kdict_find (@nil (hkey * json)) k = None) /\
    speaker_counter four_segments_final = len keys /\
    auto_names four_segments_final = numbering 0 keys.
Proof.
  apply (auto_label_table_is_a_numbering sample_repr sample_float_of_str
           [] four_segments four_segments_final).
  reflexivity.
Defined.

Lemma transcript_opening_and_size_witness :
  startswith sparse_transcript (transcript_title ++ nl) = true /\
  len sparse_transcript <= 25053.
Proof.
  apply (transcript_opening_and_size sample_repr sample_float_of_str
           (transcript_world (JDict sparse_payload)) (py "c1") sparse_transcript).
  vm_compute. reflexivity.
Defined.

Lemma listing_opening_and_size_witness :
  startswith (py "# Jiminny Conversations (page 3, 0 total)" ++ nl ++ nl
              ++ py "No conversations found.")
             (py "# Jiminny Conversations (page ") = true.
Proof.
  apply (proj1 (listing_opening_and_size sample_repr (JDict empty_page)
                  (py "# Jiminny Conversations (page 3, 0 total)" ++ nl ++ nl
                   ++ py "No conversations found.") eq_refl)).
Defined.

Lemma integer_offset_timestamp_witness :
  segment_timestamp sample_repr sample_float_of_str (JInt 3600) = Ok (py "60:00").
Proof.
  apply (integer_offset_timestamp sample_repr sample_float_of_str 3600);
    [discriminate|reflexivity].
Defined.

Lemma listing_needs_object_records_witness :
  exists e,
    _format_conversation_list sample_repr
      (JDict [(py "results", JList [JDict []; JStr (py "oops")])]) = Raise e.
Proof.
  apply (listing_needs_object_records sample_repr
           [(py "results", JList [JDict []; JStr (py "oops")])]
           [JDict []; JStr (py "oops")] (JStr (py "oops")));
    [reflexivity|right; now left|reflexivity].
Defined.
